(** * thinc: layer composition, mean pooling and layer normalisation

    A shallow embedding of

      - [thinc/layers/chain.py]      (module [Chain]),
      - [thinc/layers/meanpool.py]   (module [MeanPool]),
      - [thinc/neural/_classes/layernorm.py] (module [LayerNorm]),

    Python calls are computations in a state-and-exception monad: a call
    threads the mutable store and either returns a value or raises.  The
    store survives a raise, as it does in Python. *)

From Stdlib Require Import ZArith PrimFloat.
From stdpp Require Import gmap strings list pretty.

Set Warnings "-inexact-float".
Local Open Scope Z_scope.

(** ** Python outcomes *)

Inductive exn : Type :=
| UnboundLocalError (var : string)
| AssertionError
| AttributeError (attr : string)
| IndexError
| KeyError (key : string)
| ExternalError (tag : nat)
| DanglingReference (address : nat).

Inductive result (A : Type) : Type :=
| Ok (a : A)
| Raise (e : exn).
Arguments Ok {A} a.
Arguments Raise {A} e.

(** ** The state-and-exception monad *)

Definition M (S A : Type) : Type := S -> S * result A.

Definition ret {S A} (a : A) : M S A := fun s => (s, Ok a).

Definition raise {S A} (e : exn) : M S A := fun s => (s, Raise e).

Definition bind {S A B} (c : M S A) (k : A -> M S B) : M S B :=
  fun s =>
    match c s with
    | (s', Ok a) => k a s'
    | (s', Raise e) => (s', Raise e)
    end.

Definition lift_result {S A} (r : result A) : M S A := fun s => (s, r).

Declare Scope py_scope.
Delimit Scope py_scope with py.
Notation "'let*' x := c 'in' k" := (bind c (fun x => k))
  (at level 10, x pattern, c at level 100, k at level 200) : py_scope.
Notation "c ;; k" := (bind c (fun _ => k))
  (at level 100, right associativity) : py_scope.
Local Open Scope py_scope.

(** A Python [for] statement over a list that is not restructured while
    it is iterated: the body threads the loop's local variables and says
    whether it ran to its end or hit [break]. *)

Inductive ctl : Type := Continue | Break.

Fixpoint for_in {S A L} (xs : list A) (body : A -> L -> M S (ctl * L))
    (l : L) : M S L :=
  match xs with
  | [] => ret l
  | x :: xs' =>
      let* (c, l') := body x l in
      match c with
      | Continue => for_in xs' body l'
      | Break => ret l'
      end
  end.

(** Python truthiness of a value that is [None], [True] or [False]. *)
Definition truthy (v : option bool) : bool :=
  match v with
  | Some b => b
  | None => false
  end.

(** * Models of [thinc.model]

    Model objects live in a heap and are named by their address, so that
    "the same instance" and in-place updates of [layers] can be stated. *)

Definition loc := nat.

(** Identity of a model's forward function ([model._func]). *)
Inductive forward_fn : Type :=
| ChainForward
| MeanPoolForward
| OtherForward (tag : nat).

Inductive init_fn : Type :=
| ChainInit
| OtherInit (tag : nat).

Global Instance forward_fn_eq_dec : EqDecision forward_fn.
Proof. solve_decision. Defined.

(** Modelled from the spec: the class [Model] ([thinc/model.py] is not
    among the sources). Section 3 gives it a name, a forward function, a
    mapping from dimension names to optional integers ([None]: not yet
    known), named parameters and an ordered, mutable list of sublayers;
    [chain] also hands it an [init] function. *)
Record Model : Type := mkModel {
  name : string;
  _func : forward_fn;
  _init : option init_fn;
  dims : gmap string (option Z);
  params : list string;
  layers : list loc
}.

Definition set_layers (m : Model) (ls : list loc) : Model :=
  mkModel (name m) (_func m) (_init m) (dims m) (params m) ls.

Definition set_dims (m : Model) (d : gmap string (option Z)) : Model :=
  mkModel (name m) (_func m) (_init m) d (params m) (layers m).

(** * [thinc/layers/chain.py] *)

Module Chain.

(** The store: the heap of [Model] objects, and [W], whatever else is
    mutable (parameter memory, backend state). *)
Record state (W : Type) : Type := mkState {
  heap : gmap loc Model;
  world : W
}.
Arguments mkState {W} heap world.
Arguments heap {W} s.
Arguments world {W} s.

(** A layer's backward closure, over the values [V] that layers consume
    and produce ([InputType], [OutputType]). *)
Definition callback (V W : Type) : Type := V -> M (state W) V.

(** Collaborators that are not part of these sources: calling a sublayer
    ([Model.__call__]), [Model.initialize] and [Model.predict] of a
    sublayer, [util.get_width], and the dimension interface of [Model]
    over a model's [dims] dictionary.  [has_dim] yields a Python value
    that the code both tests for truth and compares with [None]. *)
Class Collaborators (V W : Type) : Type := {
  call_layer : loc -> V -> bool -> M (state W) (V * callback V W);
  initialize_layer : loc -> option V -> option V -> M (state W) unit;
  predict_layer : loc -> option V -> M (state W) V;
  get_width : V -> result Z;
  has_dim : gmap string (option Z) -> string -> option bool;
  get_dim : gmap string (option Z) -> string -> result (option Z);
  set_dim :
    gmap string (option Z) -> string -> option Z ->
    result (gmap string (option Z))
}.

Section Embedding.
Context {V W : Type} `{!Collaborators V W}.

(** ** Heap access *)

Definition deref (l : loc) : M (state W) Model :=
  fun s =>
    match heap s !! l with
    | Some m => (s, Ok m)
    | None => (s, Raise (DanglingReference l))
    end.

Definition store (l : loc) (m : Model) : M (state W) unit :=
  fun s => (mkState (<[l:=m]> (heap s)) (world s), Ok tt).

(** Modelled from the spec: the constructor [Model(...)] ([thinc/model.py]
    is not among the sources) makes a new object, here at an unused
    address, that holds the arguments it was given. *)
Definition new_model (m : Model) : M (state W) loc :=
  fun s =>
    let l := fresh (dom (heap s)) in
    (mkState (<[l:=m]> (heap s)) (world s), Ok l).

Definition model_has_dim (l : loc) (k : string) : M (state W) (option bool) :=
  let* m := deref l in ret (has_dim (dims m) k).

Definition model_get_dim (l : loc) (k : string) : M (state W) (option Z) :=
  let* m := deref l in lift_result (get_dim (dims m) k).

Definition model_set_dim (l : loc) (k : string) (v : option Z)
    : M (state W) unit :=
  let* m := deref l in
  let* d := lift_result (set_dim (dims m) k v) in
  store l (set_dims m d).

(** [model.layers[0]] and [model.layers[-1]]. *)
Definition first_layer (model : loc) : M (state W) loc :=
  let* m := deref model in
  match layers m with
  | [] => raise IndexError
  | l :: _ => ret l
  end.

Definition last_layer (model : loc) : M (state W) loc :=
  let* m := deref model in
  match layers m with
  | [] => raise IndexError
  | l :: ls => ret (List.last ls l)
  end.

(** ** [forward] *)

Record forward_locals : Type := mkForwardLocals {
  callbacks : list (callback V W);
  cur_X : V;
  cur_Y : option V   (* [None]: the name [Y] is not bound yet *)
}.

Record backprop_locals : Type := mkBackpropLocals {
  cur_dY : V;
  cur_dX : option V  (* [None]: the name [dX] is not bound yet *)
}.

Definition backprop (callbacks : list (callback V W)) (dY : V) : M (state W) V :=
  let* vars :=
    for_in (rev callbacks)
      (fun callback vars =>
         let* dX := callback (cur_dY vars) in
         ret (Continue, mkBackpropLocals dX (Some dX)))
      (mkBackpropLocals dY None) in
  match cur_dX vars with
  | Some dX => ret dX
  | None => raise (UnboundLocalError "dX")
  end.

Definition forward (model : loc) (X : V) (is_train : bool)
    : M (state W) (V * callback V W) :=
  let* m := deref model in
  let* vars :=
    for_in (layers m)
      (fun layer vars =>
         let* (Y, inc_layer_grad) := call_layer layer (cur_X vars) is_train in
         ret (Continue,
              mkForwardLocals (callbacks vars ++ [inc_layer_grad]) Y (Some Y)))
      (mkForwardLocals [] X None) in
  match cur_Y vars with
  | Some Y => ret (Y, backprop (callbacks vars))
  | None => raise (UnboundLocalError "Y")
  end.

(** ** [init] *)

(** Lines 58-61 and 80-83: copy the ends' widths to the composite. *)
Definition propagate_ends (model : loc) : M (state W) unit :=
  let* l0 := first_layer model in
  let* h := model_has_dim l0 "nI" in
  (if truthy h
   then let* v := model_get_dim l0 "nI" in model_set_dim model "nI" v
   else ret tt) ;;
  let* ln := last_layer model in
  let* h := model_has_dim ln "nO" in
  if truthy h
  then let* v := model_get_dim ln "nO" in model_set_dim model "nO" v
  else ret tt.

(** Body of the loop of lines 69-75, for one sublayer. *)
Definition infer_step (layer : loc) (nO : option Z)
    : M (state W) (ctl * option Z) :=
  (match nO with
   | Some _ =>
       let* h := model_has_dim layer "nO" in
       match h with
       | None => model_set_dim layer "nO" nO
       | Some _ => ret tt
       end
   | None => ret tt
   end) ;;
  let* h := model_has_dim layer "nI" in
  if truthy h
  then let* v := model_get_dim layer "nI" in ret (Continue, v)
  else ret (Break, nO).

(** Lines 69-75: [for layer in reversed(model.layers)]. *)
Definition infer_widths (model : loc) (nO : option Z)
    : M (state W) (option Z) :=
  let* m := deref model in
  for_in (rev (layers m)) infer_step nO.

Definition init (model : loc) (X Y : option V) : M (state W) unit :=
  let* m := deref model in
  match layers m with
  | [] => ret tt
  | _ :: _ =>
      match X, Y with
      | None, None =>
          for_in (layers m)
            (fun layer _ =>
               initialize_layer layer None None ;; ret (Continue, tt)) tt ;;
          propagate_ends model
      | _, _ =>
          let* nO :=
            match Y with
            | Some y => let* w := lift_result (get_width y) in ret (Some w)
            | None =>
                let* h := model_has_dim model "nO" in
                if truthy h then model_get_dim model "nO" else ret None
            end in
          infer_widths model nO ;;
          let* m := deref model in
          let* X :=
            for_in (removelast (layers m))
              (fun layer X =>
                 initialize_layer layer X None ;;
                 let* X' := predict_layer layer X in
                 ret (Continue, Some X'))
              X in
          let* ln := last_layer model in
          initialize_layer ln X Y ;;
          propagate_ends model
      end
  end.

(** ** [chain] *)

(** Modelled from the spec: [Model.initialize] ([thinc/model.py] is not
    among the sources) runs the [init] function the model was made with;
    for any other model it is the collaborator's [initialize_layer]. *)
Definition initialize (model : loc) (X Y : option V) : M (state W) unit :=
  let* m := deref model in
  match _init m with
  | Some ChainInit => init model X Y
  | _ => initialize_layer model X Y
  end.

(** Lines 19-28: a new composite over the argument tuple [ls] (the
    source's [layers]). *)
Definition chain_new (ls : list loc) : M (state W) loc :=
  let* names :=
    for_in ls
      (fun layer acc => let* m := deref layer in ret (Continue, acc ++ [name m]))
      [] in
  let* model :=
    new_model
      (mkModel (String.concat ">>" names) ChainForward (Some ChainInit)
         (<["nO":=None]> (<["nI":=None]> ∅)) [] ls) in
  let* eager :=
    match ls with
    | [] => ret false
    | l0 :: ls =>
        let* h := model_has_dim l0 "nI" in
        if truthy h
        then let* h' := model_has_dim (List.last ls l0) "nO" in ret (truthy h')
        else ret false
    end in
  (if eager then initialize model None None else ret tt) ;;
  ret model.

Definition chain (ls : list loc) : M (state W) loc :=
  match ls with
  | l0 :: rest =>
      let* m0 := deref l0 in
      if bool_decide (_func m0 = ChainForward)
      then
        (* layers[0].layers.extend(layers[1:]) *)
        (let* m := deref l0 in
         store l0 (set_layers m (layers m ++ rest))) ;;
        ret l0
      else chain_new ls
  | [] => chain_new ls
  end.

(** ** The composition and the width inference as sections 4.1.1 and
    4.1.2 of the specification word them *)

(** Feed the input through each sublayer in order, the training flag
    unchanged, collecting the backward closures in invocation order; the
    value returned is the last sublayer's output. *)
Fixpoint feed_in_order (ls : list loc) (X : V) (is_train : bool)
    : M (state W) (V * list (callback V W)) :=
  match ls with
  | [] => ret (X, [])
  | layer :: rest =>
      let* (Y, cb) := call_layer layer X is_train in
      let* (Z, cbs) := feed_in_order rest Y is_train in
      ret (Z, cb :: cbs)
  end.

(** Apply the closures in reverse order: each one consumes the gradient
    produced by the closures of the later layers. *)
Fixpoint unwind_in_reverse (cbs : list (callback V W)) (dY : V)
    : M (state W) V :=
  match cbs with
  | [] => ret dY
  | cb :: later =>
      let* d := unwind_in_reverse later dY in
      cb d
  end.


(** Modelled from the spec: one visit of the reverse walk as section
    4.1.2 words it. The first half is the code's. Then a sublayer that
    declares an input-width dimension (the name [nI] is a key of its
    [dims], with a value or with [None]) hands on what it holds for it as
    the next running width, and a sublayer without that key ends the
    walk. *)
Definition infer_step_as_worded (layer : loc) (nO : option Z)
    : M (state W) (ctl * option Z) :=
  (match nO with
   | Some _ =>
       let* h := model_has_dim layer "nO" in
       match h with
       | None => model_set_dim layer "nO" nO
       | Some _ => ret tt
       end
   | None => ret tt
   end) ;;
  let* m := deref layer in
  match dims m !! "nI" with
  | Some v => ret (Continue, v)
  | None => ret (Break, nO)
  end.

(** Modelled from the spec: the reverse walk made of such visits. *)
Definition infer_widths_as_worded (model : loc) (nO : option Z)
    : M (state W) (option Z) :=
  let* m := deref model in
  for_in (rev (layers m)) infer_step_as_worded nO.

(** ** Auxiliary notions for the statements about [chain] and [init] *)

(** Initialise the sublayers in order, without sample data (lines 56-57). *)
Fixpoint initialize_all (ls : list loc) : M (state W) unit :=
  match ls with
  | [] => ret tt
  | layer :: rest => initialize_layer layer None None ;; initialize_all rest
  end.

(** [if src.has_dim(k): dst.set_dim(k, src.get_dim(k))] on the two
    dictionaries (lines 58-61 and 80-83). *)
Definition copy_dim (k : string) (src dst : gmap string (option Z))
    : result (gmap string (option Z)) :=
  if truthy (has_dim src k)
  then match get_dim src k with
       | Ok v => set_dim dst k v
       | Raise e => Raise e
       end
  else Ok dst.

(** The truth value of the test of line 26 on the argument objects. *)
Definition eager (ms : list Model) : bool :=
  match ms with
  | [] => false
  | m0 :: rest =>
      truthy (has_dim (dims m0) "nI")
      && truthy (has_dim (dims (List.last rest m0)) "nO")
  end.

(** [s'] differs from [s] at most in the [dims] of objects at the
    addresses [visited]. *)
Definition same_but_dims (visited : list loc) (s s' : state W) : Prop :=
  world s' = world s
  /\ forall l,
      heap s' !! l = heap s !! l
      \/ (l ∈ visited
          /\ exists mo d,
               heap s !! l = Some mo /\ heap s' !! l = Some (set_dims mo d)).

End Embedding.
End Chain.

(** * [thinc/layers/meanpool.py] *)

Module MeanPool.

(** The two kernels of the backend ([model.ops]) that the layer calls;
    [B] is the backend's own state, [Arr] and [Lens] the padded batch and
    the lengths. *)
Class Ops (Arr Lens B : Type) : Type := {
  mean_pool : Arr -> Lens -> M B Arr;
  backprop_mean_pool : Arr -> Lens -> M B Arr
}.

(** Modelled from the spec: the defaults of [Model]'s constructor
    ([thinc/model.py] is not among the sources). A model made from a name
    and a forward function alone owns nothing else: no [init], no
    dimensions, no parameters, no sublayers. *)
Definition default_model (name : string) (forward : forward_fn) : Model :=
  mkModel name forward None ∅ [] [].

(** [MeanPool()] is [Model("mean_pool", forward)]. *)
Definition MeanPool : Model := default_model "mean_pool" MeanPoolForward.

Section Embedding.
Context {Arr Lens B : Type} `{!Ops Arr Lens B}.

Definition backprop (lengths : Lens) (dY : Arr) : M B (Arr * Lens) :=
  let* dX := backprop_mean_pool dY lengths in
  ret (dX, lengths).

Definition forward (model : Model) (X_lengths : Arr * Lens) (is_train : bool)
    : M B (Arr * (Arr -> M B (Arr * Lens))) :=
  let (X, lengths) := X_lengths in
  let* Y := mean_pool X lengths in
  ret (Y, backprop lengths).

End Embedding.
End MeanPool.

(** * [thinc/neural/_classes/layernorm.py] *)

Module LayerNorm.

Inductive dtype : Type := Float32 | Float64 | OtherDtype.

Global Instance dtype_eq_dec : EqDecision dtype.
Proof. solve_decision. Defined.

(** Elements of a Python list literal handed to [ops.asarray]. *)
Inductive pynum : Type :=
| PyInt (z : Z)
| PyFloat (f : float).

(** The array interface the layer uses, over [T], the numeric values of
    the program (arrays, and Python floats where they are operands).
    Operands are taken to be broadcastable, so the operations are total. *)
Class Numpy (T : Type) : Type := {
  add : T -> T -> T;
  sub : T -> T -> T;
  mul : T -> T -> T;
  div : T -> T -> T;
  pow : T -> T -> T;
  lit : float -> T;               (* a float literal used as an operand *)
  mean_axis1 : T -> T;            (* a.mean(axis=1, keepdims=True) *)
  var_axis1 : T -> T;             (* a.var(axis=1, keepdims=True) *)
  sum_axis0 : T -> T;             (* a.sum(axis=0) *)
  sum_axis1 : T -> T;             (* xp.sum(a, axis=1, keepdims=True) *)
  shape1 : T -> Z;                (* a.shape[1] *)
  asarray_f : list pynum -> T;    (* ops.asarray([...], dtype='f') *)
  dtype_of : T -> dtype           (* a.dtype *)
}.

(** The layer's parameter memory: [_mem.weights] holds [G] and [b],
    [_mem.gradient] holds [d_G] and [d_b]. *)
Record Memory (T : Type) : Type := mkMemory {
  G : T;
  b : T;
  d_G : T;
  d_b : T
}.
Arguments mkMemory {T} G b d_G d_b.
Arguments G {T} m.
Arguments b {T} m.
Arguments d_G {T} m.
Arguments d_b {T} m.

(** Calls the layer makes to its collaborators, in the order made. *)
Inductive event (T : Type) : Type :=
| EvChildBeginUpdate (X drop : T)
| EvDropout (y rate : T)
| EvSgd (key : Z)
| EvChildBackprop (d_xhat : T).
Arguments EvChildBeginUpdate {T} X drop.
Arguments EvDropout {T} y rate.
Arguments EvSgd {T} key.
Arguments EvChildBackprop {T} d_xhat.

(** The store: the layer's own memory, everything else ([W]: the child's
    parameters, the optimizer's and the backend's state), and the calls
    made so far. *)
Record state (T W : Type) : Type := mkState {
  mem : Memory T;
  world : W;
  log : list (event T)
}.
Arguments mkState {T W} mem world log.
Arguments mem {T W} s.
Arguments world {T W} s.
Arguments log {T W} s.

(** [sgd(weights, gradient, key=...)] updates the two buffers in place. *)
Definition optimizer (T W : Type) : Type :=
  Memory T -> Z -> W -> (Memory T * W) * result unit.

(** The child's backward closure; it owns no part of the layer's memory. *)
Definition child_backprop (T W : Type) : Type :=
  T -> option (optimizer T W) -> M W T.

(** A backward closure of the layer itself. *)
Definition closure (T W : Type) : Type :=
  T -> option (optimizer T W) -> M (state T W) T.

(** The child layer and the backend's dropout. An attribute of the child
    is absent ([None]) or holds a value; a width is [None] or an int. *)
Class Collaborators (T W : Type) : Type := {
  child_begin_update : T -> T -> M W (T * child_backprop T W);
  child_predict : T -> M W T;
  child_nO : option (option Z);
  child_drop_factor : option T;
  ops_dropout : T -> T -> M W (T * (closure T W -> closure T W))
}.

(** ** [__init__] *)

(** The attributes [__init__] assigns besides [child] and [_layers];
    [None] is an attribute that was never assigned. *)
Record attributes : Type := mkAttributes {
  nO : option (option Z);
  nr_upd : option Z
}.

(** Truth value of a width: [None] and [0] are false. *)
Definition width_truthy (v : option Z) : bool :=
  match v with
  | Some n => negb (n =? 0)
  | None => false
  end.

(** [getattr(obj, name, default)] *)
Definition getattr {A} (attr : option A) (default : A) : A :=
  match attr with
  | Some v => v
  | None => default
  end.

(** [obj.name]: raises if the attribute was never assigned. *)
Definition attribute {A} (name : string) (attr : option A) : result A :=
  match attr with
  | Some v => Ok v
  | None => Raise (AttributeError name)
  end.

(** The shape functions of [G] and [b]: [lambda obj: (obj.nO,)]. *)
Definition G_shape (obj : attributes) : result (list (option Z)) :=
  match attribute "nO" (nO obj) with
  | Ok v => Ok [v]
  | Raise e => Raise e
  end.

Definition b_shape (obj : attributes) : result (list (option Z)) :=
  match attribute "nO" (nO obj) with
  | Ok v => Ok [v]
  | Raise e => Raise e
  end.

Section Embedding.
Context {T W : Type} `{!Numpy T} `{!Collaborators T W}.

(** [__init__], lines 26-34. The base initialiser [Model.__init__] is not
    among the sources; it allocates the memory and the id, and is taken
    to assign no [nO] (by section 3 of the specification the width comes
    from the explicit argument or from the child). *)
Definition __init__ (kwargs : gmap string (option Z)) : attributes :=
  let self_nO :=
    match kwargs !! "nO" with
    | Some v => Some v
    | None =>
        if width_truthy (getattr child_nO None)
        then child_nO
        else None
    end in
  mkAttributes self_nO (Some 0).

(** ** Store access *)

Definition get_mem : M (state T W) (Memory T) :=
  fun s => (s, Ok (mem s)).

Definition set_mem (m : Memory T) : M (state T W) unit :=
  fun s => (mkState m (world s) (log s), Ok tt).

Definition emit (e : event T) : M (state T W) unit :=
  fun s => (mkState (mem s) (world s) (log s ++ [e]), Ok tt).

(** A collaborator's call runs on its part of the store. *)
Definition lift_world {A} (c : M W A) : M (state T W) A :=
  fun s =>
    let (w, r) := c (world s) in
    (mkState (mem s) w (log s), r).

Definition call_sgd (sgd : optimizer T W) (key : Z) : M (state T W) unit :=
  emit (EvSgd key) ;;
  fun s =>
    let '((m, w), r) := sgd (mem s) key (world s) in
    (mkState m w (log s), r).

(** ** Moments *)

Definition _get_moments (X : T) : T * T * T :=
  let mu := mean_axis1 X in
  let var := add (var_axis1 X) (lit 1e-08) in
  (asarray_f [PyInt (shape1 X)], mu, var).

Definition _get_d_moments (dy X mu : T) : T * T * T :=
  let dist := sub X mu in
  (dist, sum_axis1 dy, sum_axis1 (mul dy dist)).

Definition _forward (X mu var : T) : T :=
  mul (sub X mu) (pow var (lit (-1 / 2))).

(** ** [_begin_update_scale_shift] *)

Definition scale_shift_finish_update (self_id : Z) (input__BI : T)
    : closure T W :=
  fun gradient__BI sgd =>
    (let* m := get_mem in
     set_mem (mkMemory (G m) (b m) (d_G m)
                (add (d_b m) (sum_axis0 gradient__BI)))) ;;
    (let* m := get_mem in
     set_mem (mkMemory (G m) (b m)
                (add (d_G m) (sum_axis0 (mul gradient__BI input__BI)))
                (d_b m))) ;;
    (match sgd with
     | Some f => call_sgd f self_id
     | None => ret tt
     end) ;;
    let* m := get_mem in
    ret (mul gradient__BI (G m)).

Definition _begin_update_scale_shift (self_id : Z) (input__BI : T)
    : M (state T W) (T * closure T W) :=
  let* m := get_mem in
  ret (add (mul input__BI (G m)) (b m),
       scale_shift_finish_update self_id input__BI).

(** ** [predict] and [begin_update] *)

Definition predict (X : T) : M (state T W) T :=
  let* X := lift_world (child_predict X) in
  let '(N, mu, var) := _get_moments X in
  let Xh := _forward X mu var in
  let* m := get_mem in
  ret (add (mul Xh (G m)) (b m)).

(** The closure [finish_update] of [begin_update], with the variables it
    captures as its first arguments. *)
Definition finish_update (X N mu var : T) (backprop_rescale : closure T W)
    (backprop_child : child_backprop T W) : closure T W :=
  fun dy sgd =>
    let* dy := backprop_rescale dy sgd in
    let '(dist, sum_dy, sum_dy_dist) := _get_d_moments dy X mu in
    let d_xhat :=
      sub (sub (mul N dy) sum_dy)
          (mul (mul dist (pow var (lit (-1)))) sum_dy_dist) in
    let d_xhat := mul d_xhat (pow var (lit (-1 / 2))) in
    let d_xhat := div d_xhat N in
    emit (EvChildBackprop d_xhat) ;;
    lift_world (backprop_child d_xhat sgd).

Definition begin_update (self_id : Z) (X drop : T)
    : M (state T W) (T * closure T W) :=
  emit (EvChildBeginUpdate X (lit 0)) ;;
  let* (X, backprop_child) := lift_world (child_begin_update X (lit 0)) in
  let '(N, mu, var) := _get_moments X in
  let Xhat := _forward X mu var in
  let* (y, backprop_rescale) := _begin_update_scale_shift self_id Xhat in
  let drop :=
    mul drop (getattr child_drop_factor (asarray_f [PyFloat 1.0])) in
  emit (EvDropout y drop) ;;
  let* (y, bp_dropout) := lift_world (ops_dropout y drop) in
  if bool_decide (dtype_of y = Float32)
  then ret (y, bp_dropout
                 (finish_update X N mu var backprop_rescale backprop_child))
  else raise AssertionError.

(** ** The backward pass as section 4.3 of the specification words it *)

(** [d_xhat = (N*dy - sum(dy) - dist * var^-1 * sum(dy*dist))
              * var^-0.5 / N] *)
Definition d_xhat_formula (N dy dist var : T) : T :=
  div (mul (sub (sub (mul N dy) (sum_axis1 dy))
                (mul (mul dist (pow var (lit (-1)))) (sum_axis1 (mul dy dist))))
           (pow var (lit (-0.5))))
      N.

(** [d_b += sum(gradient, over batch axis)];
    [d_G += sum(gradient * Xhat, over batch axis)]. *)
Definition accumulated (m : Memory T) (gradient Xhat : T) : Memory T :=
  mkMemory (G m) (b m)
    (add (d_G m) (sum_axis0 (mul gradient Xhat)))
    (add (d_b m) (sum_axis0 gradient)).

(** The optimizer's update of the buffers, when one is supplied. *)
Definition optimizer_update (sgd : option (optimizer T W)) (key : Z)
    (m : Memory T) (w : W) : (Memory T * W) * result unit :=
  match sgd with
  | Some f => f m key w
  | None => ((m, w), Ok tt)
  end.

Definition optimizer_events (sgd : option (optimizer T W)) (key : Z)
    : list (event T) :=
  match sgd with
  | Some _ => [EvSgd key]
  | None => []
  end.

(** The moments of the child's output [X] and what the forward pass
    derives from them. *)
Definition mu_of (X : T) : T := mean_axis1 X.
Definition var_of (X : T) : T := add (var_axis1 X) (lit 1e-08).
Definition N_of (X : T) : T := asarray_f [PyInt (shape1 X)].
Definition Xhat_of (X : T) : T :=
  mul (sub X (mu_of X)) (pow (var_of X) (lit (-0.5))).

(** The dropout rate of the layer: the caller's [drop] times the child's
    [drop_factor], or times a one when the child has none. *)
Definition effective_rate (drop : T) : T :=
  mul drop (getattr child_drop_factor (asarray_f [PyFloat 1.0])).

End Embedding.
End LayerNorm.

(** * [thinc/shims/tensorflow.py]

    The parts of [TensorFlowShim] that are plain Python over the wrapped
    Keras model: the choice of the optimizer, the state dict, and the
    temporary replacement of weights. *)

Module TensorFlowShim.

(** ** [_create_optimizer] *)

(** The fields of the optimizer argument that the method reads. *)
Record Optimizer : Type := mkOptimizer {
  alpha : float;
  b1 : float;
  b2 : float
}.

(** The Keras optimizer that is constructed, with its keyword arguments. *)
Inductive keras_optimizer : Type :=
| Adam (learning_rate beta_1 beta_2 : float)
| SGD (learning_rate momentum : float).

(** [x != 0] and [x == 0] on floats. *)
Definition ne_zero (x : float) : bool := negb (PrimFloat.eqb x 0).
Definition eq_zero (x : float) : bool := PrimFloat.eqb x 0.

(** [None] stands for [raise NotImplementedError], the one error the
    method raises. *)
Definition _create_optimizer (sgd : Optimizer) : option keras_optimizer :=
  if ne_zero (b1 sgd) && ne_zero (b2 sgd)
  then Some (Adam (alpha sgd) (b1 sgd) (b2 sgd))
  else if eq_zero (b2 sgd)
  then Some (SGD (alpha sgd) (b1 sgd))
  else None.

(** ** The wrapped Keras model *)

(** A [tf.Variable] as the shim reads it: [weight.name] and
    [weight.numpy()]. A layer is its list [layer.weights], the model its
    list [self._model.layers]. *)
Record variable (A : Type) : Type := mkVariable {
  name : string;
  numpy : A
}.
Arguments mkVariable {A} name numpy.
Arguments name {A} v.
Arguments numpy {A} v.

(** Collaborators: Keras' [layer.set_weights], whether [cupy] was
    imported, the array tests and conversion of [use_params], and for
    the averages [util.tensorflow2xp], [sgd.ops.update_averages] (the
    average it leaves in place) and what [sgd.nr_update[key]] gives for
    a key that is not there: a count if the mapping supplies defaults, a
    raise if it is a plain dictionary. *)
Class Backend (A : Type) : Type := {
  set_weights : list (variable A) -> list A -> result (list (variable A));
  cupy_is_none : bool;
  is_numpy_ndarray : A -> bool;
  is_cupy_ndarray : A -> bool;
  cupy_asnumpy : A -> A;
  tensorflow2xp : variable A -> A;
  update_averages : A -> A -> Z -> A;
  nr_update_missing : result Z
}.

(** Keys of a parameter dictionary: strings, or objects without a
    [startswith] attribute. *)
Inductive key : Type :=
| StrKey (k : string)
| OtherKey (tag : nat).

(** [s.replace(old, "")]: the occurrences of [old] are removed from left
    to right, without overlap. [skip] counts the characters of an
    occurrence that are still to be dropped. *)
Fixpoint remove_all (old : string) (skip : nat) (s : string) : string :=
  match s with
  | EmptyString => EmptyString
  | String c s' =>
      match skip with
      | S n => remove_all old n s'
      | O =>
          if String.prefix old s
          then remove_all old (String.length old - 1) s'
          else String c (remove_all old 0 s')
      end
  end.

Definition str_replace_with_empty (old s : string) : string :=
  match old with
  | EmptyString => s
  | String _ _ => remove_all old 0 s
  end.

(** [f"tensorflow_{self.id}_"] *)
Definition key_prefix (self_id : Z) : string :=
  "tensorflow_" +:+ pretty self_id +:+ "_".

Global Instance key_eq_dec : EqDecision key.
Proof. solve_decision. Defined.

(** Whether [old] occurs in [s]. *)
Fixpoint occurs (old s : string) : bool :=
  match s with
  | EmptyString => String.prefix old s
  | String _ s' => String.prefix old s || occurs old s'
  end.

(** The two attributes of the optimizer that [_update_tensorflow_averages]
    reads and writes: [averages] ([None]: missing or [None]; a dictionary
    in insertion order otherwise) and the string keys of [nr_update]. *)
Record sgd_store (A : Type) : Type := mkSgd {
  averages : option (list (key * A));
  nr_update : gmap string Z
}.
Arguments mkSgd {A} averages nr_update.
Arguments averages {A} s.
Arguments nr_update {A} s.

(** [d[k]] on a dictionary kept as a list, and [d[k] = v]: in place for
    a key that is there, at the end for a new one. *)
Fixpoint dict_get {A} (k : key) (d : list (key * A)) : option A :=
  match d with
  | [] => None
  | (k', v) :: rest => if decide (k' = k) then Some v else dict_get k rest
  end.

Fixpoint dict_set {A} (k : key) (v : A) (d : list (key * A))
    : list (key * A) :=
  match d with
  | [] => [(k, v)]
  | (k', v') :: rest =>
      if decide (k' = k) then (k, v) :: rest else (k', v') :: dict_set k v rest
  end.

(** [hasattr(k, "startswith") and k.startswith(key_prefix)] *)
Definition key_matches (prefix : string) (k : key) : bool :=
  match k with
  | StrKey k => String.prefix prefix k
  | OtherKey _ => false
  end.

Section Embedding.
Context {A : Type} `{!Backend A}.

(** ** [_create_state_dict] *)

(** Line 125: [state_dict[weight.name] = weight.numpy()]. *)
Definition put (state_dict : gmap string A) (weight : variable A)
    : gmap string A :=
  <[name weight := numpy weight]> state_dict.

Definition _create_state_dict (layers : list (list (variable A)))
    : gmap string A :=
  foldl (fun state_dict layer => foldl put state_dict layer) ∅ layers.

(** ** [_load_weights_from_state_dict] *)

(** Lines 114-116: the values for one layer, looked up by name. *)
Fixpoint current_layer_weights (state_dict : gmap string A)
    (weights : list (variable A)) : result (list A) :=
  match weights with
  | [] => Ok []
  | weight :: rest =>
      match state_dict !! name weight with
      | None => Raise (KeyError (name weight))
      | Some v =>
          match current_layer_weights state_dict rest with
          | Ok vs => Ok (v :: vs)
          | Raise e => Raise e
          end
      end
  end.

(** Lines 113-117, over the layers that are still to be set; a layer
    whose [set_weights] raises is left as it was. *)
Fixpoint load_layers (state_dict : gmap string A)
    (layers : list (list (variable A)))
    : list (list (variable A)) * result unit :=
  match layers with
  | [] => ([], Ok tt)
  | layer :: rest =>
      match current_layer_weights state_dict layer with
      | Raise e => (layer :: rest, Raise e)
      | Ok vs =>
          match set_weights layer vs with
          | Raise e => (layer :: rest, Raise e)
          | Ok layer' =>
              let (rest', r) := load_layers state_dict rest in
              (layer' :: rest', r)
          end
      end
  end.

Definition _load_weights_from_state_dict
    (state_dict : option (gmap string A))
    : M (list (list (variable A))) unit :=
  fun layers =>
    let state_dict :=
      match state_dict with
      | None => _create_state_dict layers
      | Some d => d
      end in
    load_layers state_dict layers.

(** ** [use_params] *)

(** Lines 135-140: the value that goes into the state dict. *)
Definition checked_value (v : A) : result A :=
  if cupy_is_none
  then if is_numpy_ndarray v then Ok v else Raise AssertionError
  else
    let v := if is_cupy_ndarray v then cupy_asnumpy v else v in
    if is_numpy_ndarray v then Ok v else Raise AssertionError.

(** Lines 132-141: the loop over [params.items()]. *)
Fixpoint collect_params (prefix : string) (params : list (key * A))
    (state_dict : gmap string A) : result (gmap string A) :=
  match params with
  | [] => Ok state_dict
  | (StrKey k, v) :: rest =>
      if String.prefix prefix k
      then
        match checked_value v with
        | Raise e => Raise e
        | Ok v =>
            collect_params prefix rest
              (<[str_replace_with_empty prefix k := v]> state_dict)
        end
      else collect_params prefix rest state_dict
  | (OtherKey _, _) :: rest => collect_params prefix rest state_dict
  end.

(** [with shim.use_params(params): body]. The generator runs to its
    [yield], the body runs, and the generator is resumed only if the body
    returned: the method has no [try] around the [yield]. *)
Definition use_params (self_id : Z) (params : list (key * A))
    (body : M (list (list (variable A))) unit)
    : M (list (list (variable A))) unit :=
  let* state_dict :=
    lift_result (collect_params (key_prefix self_id) params ∅) in
  if bool_decide (size state_dict = 0%nat)
  then body
  else
    let* backup := (fun layers => (layers, Ok (_create_state_dict layers))) in
    _load_weights_from_state_dict (Some state_dict) ;;
    body ;;
    _load_weights_from_state_dict (Some backup).

(** ** [_update_tensorflow_averages] *)

(** [f"tensorflow_{self.id}_{layer.name}"] *)
Definition averages_key (self_id : Z) (weight : variable A) : string :=
  key_prefix self_id +:+ name weight.

(** [sgd.nr_update[key]] *)
Definition nr_update_get (k : string) : M (sgd_store A) Z :=
  fun sgd =>
    match nr_update sgd !! k with
    | Some n => (sgd, Ok n)
    | None => (sgd, nr_update_missing)
    end.

Definition nr_update_set (k : string) (n : Z) : M (sgd_store A) unit :=
  fun sgd => (mkSgd (averages sgd) (<[k:=n]> (nr_update sgd)), Ok tt).

(** [sgd.averages], a dictionary once the test of line 151 has passed. *)
Definition averages_get : M (sgd_store A) (list (key * A)) :=
  fun sgd =>
    match averages sgd with
    | Some d => (sgd, Ok d)
    | None => (sgd, Raise (AttributeError "averages"))
    end.

Definition averages_set (d : list (key * A)) : M (sgd_store A) unit :=
  fun sgd => (mkSgd (Some d) (nr_update sgd), Ok tt).

Definition _update_tensorflow_averages (self_id : Z) (init_steps : Z)
    (model_layers : list (list (variable A))) : M (sgd_store A) unit :=
  fun sgd =>
    match averages sgd with
    | None => (sgd, Ok tt)
    | Some _ =>
        (for_in (concat model_layers)
           (fun layer (_ : unit) =>
              let key := averages_key self_id layer in
              (let* n := nr_update_get key in nr_update_set key (n + 1)) ;;
              let xp_param := tensorflow2xp layer in
              let* d := averages_get in
              match dict_get (StrKey key) d with
              | Some average =>
                  let* n := nr_update_get key in
                  averages_set
                    (dict_set (StrKey key)
                       (update_averages average xp_param n) d) ;;
                  ret (Continue, tt)
              | None =>
                  averages_set (dict_set (StrKey key) xp_param d) ;;
                  nr_update_set key init_steps ;;
                  ret (Continue, tt)
              end)
           tt ;;
         ret tt) sgd
    end.

End Embedding.
End TensorFlowShim.

(** * Sample collaborators

    Small concrete collaborators on which the embedding runs; the
    theorems below are instantiated with them on concrete inputs. *)

Module Sample.

(** A dimension interface over the [dims] dictionary: a name is absent
    ([False]), declared but unset ([None]) or set ([True]). *)
Definition tri_has_dim (d : gmap string (option Z)) (k : string)
    : option bool :=
  match d !! k with
  | None => Some false
  | Some None => None
  | Some (Some _) => Some true
  end.

Definition dict_get_dim (d : gmap string (option Z)) (k : string)
    : result (option Z) :=
  match d !! k with
  | Some v => Ok v
  | None => Raise (KeyError k)
  end.

Definition dict_set_dim (d : gmap string (option Z)) (k : string)
    (v : option Z) : result (gmap string (option Z)) :=
  match d !! k with
  | Some _ => Ok (<[k:=v]> d)
  | None => Raise (KeyError k)
  end.

(** Layers over the integers: the layer at address [l] appends the digit
    [l] to its input, and its backward closure appends it to the
    gradient, so that a result shows the order of the calls. Layer [0]
    raises. *)
Definition digit_layer (l : loc) (X : Z) (is_train : bool)
    : M (Chain.state unit) (Z * Chain.callback Z unit) :=
  match l with
  | O => raise (ExternalError 0)
  | _ => ret (X * 10 + Z.of_nat l, fun dY => ret (dY * 10 + Z.of_nat l))
  end%Z.

Definition chain_collaborators : Chain.Collaborators Z unit := {|
  Chain.call_layer := digit_layer;
  Chain.initialize_layer := fun _ _ _ => ret tt;
  Chain.predict_layer := fun l X => ret (default 0 X * 10 + Z.of_nat l);
  Chain.get_width := fun Y => Ok Y;
  Chain.has_dim := tri_has_dim;
  Chain.get_dim := dict_get_dim;
  Chain.set_dim := dict_set_dim
|}.

(** A plain layer with the given dimensions. *)
Definition plain (n : string) (d : gmap string (option Z)) : Model :=
  mkModel n (OtherForward 0) None d [] [].

(** Three layers at addresses 1, 2 and 3: widths 4 -> ?, ? -> ?, and a
    layer without dimensions. *)
Definition three_layers : Chain.state unit :=
  Chain.mkState
    (<[1%nat := plain "a" (<["nI":=Some 4]> (<["nO":=None]> ∅))]>
       (<[2%nat := plain "b" (<["nI":=None]> (<["nO":=None]> ∅))]>
          (<[3%nat := plain "c" ∅]> ∅)))
    tt.

(** The composite [chain(a, b)] over them, at address 4. *)
Definition chain_ab : Model :=
  mkModel "a>>b" ChainForward (Some ChainInit)
    (<["nO":=None]> (<["nI":=None]> ∅)) [] [1%nat; 2%nat].

Definition chained : Chain.state unit :=
  Chain.mkState (<[4%nat := chain_ab]> (Chain.heap three_layers)) tt.

(** The degenerate composite [chain()], at address 4. *)
Definition chain_of_nothing : Model :=
  mkModel "" ChainForward (Some ChainInit)
    (<["nO":=None]> (<["nI":=None]> ∅)) [] [].

Definition degenerate : Chain.state unit :=
  Chain.mkState (<[4%nat := chain_of_nothing]> (Chain.heap three_layers)) tt.

(** A further layer "p", widths 2 -> ?, at address 5, and the composite
    [chain(p, a, b)] at address 6. *)
Definition chain_pab : Model :=
  mkModel "p>>a>>b" ChainForward (Some ChainInit)
    (<["nO":=None]> (<["nI":=None]> ∅)) [] [5%nat; 1%nat; 2%nat].

Definition chained_pab : Chain.state unit :=
  Chain.mkState
    (<[6%nat := chain_pab]>
       (<[5%nat := plain "p" (<["nI":=Some 2]> (<["nO":=None]> ∅))]>
          (Chain.heap three_layers)))
    tt.

(** The backward closure of the sample layer at address [l]. *)
Definition digit_callback (l : loc) : Chain.callback Z unit :=
  fun dY => ret (dY * 10 + Z.of_nat l).

(** A composite whose second sublayer, at address 0, raises. *)
Definition chain_a0b : Model :=
  mkModel "a>>?>>b" ChainForward (Some ChainInit)
    (<["nO":=None]> (<["nI":=None]> ∅)) [] [1%nat; 0%nat; 2%nat].

Definition interrupted : Chain.state unit :=
  Chain.mkState (<[4%nat := chain_a0b]> (Chain.heap three_layers)) tt.

(** A backward closure that raises. *)
Definition failing_callback : Chain.callback Z unit :=
  fun _ => raise (ExternalError 1).

(** ** A symbolic backend for [LayerNorm]

    Arrays are terms: an operation builds the term that names it, so a
    run shows what was computed from what. *)
#[local] Unset Elimination Schemes.
Inductive term : Type :=
| Sym (name : string)
| Num (f : float)
| Int (z : Z)
| App (op : string) (args : list term).
#[local] Set Elimination Schemes.

Definition term_of_pynum (n : LayerNorm.pynum) : term :=
  match n with
  | LayerNorm.PyInt z => Int z
  | LayerNorm.PyFloat f => Num f
  end.

(** Every array has three columns; an array built by "as_float64" is a
    float64 array, every other one a float32 array. *)
Definition symbolic_numpy : LayerNorm.Numpy term := {|
  LayerNorm.add := fun x y => App "add" [x; y];
  LayerNorm.sub := fun x y => App "sub" [x; y];
  LayerNorm.mul := fun x y => App "mul" [x; y];
  LayerNorm.div := fun x y => App "div" [x; y];
  LayerNorm.pow := fun x y => App "pow" [x; y];
  LayerNorm.lit := Num;
  LayerNorm.mean_axis1 := fun x => App "mean_axis1" [x];
  LayerNorm.var_axis1 := fun x => App "var_axis1" [x];
  LayerNorm.sum_axis0 := fun x => App "sum_axis0" [x];
  LayerNorm.sum_axis1 := fun x => App "sum_axis1" [x];
  LayerNorm.shape1 := fun _ => 3;
  LayerNorm.asarray_f := fun l => App "asarray_f" (map term_of_pynum l);
  LayerNorm.dtype_of := fun x =>
    match x with
    | App "as_float64" _ => LayerNorm.Float64
    | _ => LayerNorm.Float32
    end
|}.

(** The world is a flag: whether the child's backward pass is broken.
    The child has no [nO] and no [drop_factor]; dropout masks its input
    and wraps a closure so that the gradient is masked too. *)
Definition symbolic_child_backprop : LayerNorm.child_backprop term bool :=
  fun d sgd broken =>
    if broken then (broken, Raise (ExternalError 1))
    else (broken, Ok (App "child_backprop" [d])).

Definition symbolic_dropout_wrapper (rate : term)
    (backprop : LayerNorm.closure term bool) : LayerNorm.closure term bool :=
  fun gradient sgd => backprop (App "mask" [gradient; rate]) sgd.

Definition symbolic_collaborators : LayerNorm.Collaborators term bool := {|
  LayerNorm.child_begin_update := fun X drop =>
    ret (App "child" [X; drop], symbolic_child_backprop);
  LayerNorm.child_predict := fun X => ret (App "child_predict" [X]);
  LayerNorm.child_nO := None;
  LayerNorm.child_drop_factor := None;
  LayerNorm.ops_dropout := fun y rate =>
    ret (App "dropout" [y; rate], symbolic_dropout_wrapper rate)
|}.

Definition symbolic_memory : LayerNorm.Memory term :=
  LayerNorm.mkMemory (Sym "G") (Sym "b") (Sym "d_G") (Sym "d_b").

Definition symbolic_state (broken : bool) : LayerNorm.state term bool :=
  LayerNorm.mkState symbolic_memory broken [].

(** The same collaborators with a child whose prediction is what its
    training update returns. *)
Definition consistent_collaborators : LayerNorm.Collaborators term bool := {|
  LayerNorm.child_begin_update := fun X drop =>
    ret (App "child" [X; drop], symbolic_child_backprop);
  LayerNorm.child_predict := fun X => ret (App "child" [X; Num 0]);
  LayerNorm.child_nO := Some (Some 3);
  LayerNorm.child_drop_factor := None;
  LayerNorm.ops_dropout := fun y rate =>
    ret (App "dropout" [y; rate], symbolic_dropout_wrapper rate)
|}.

(** The same collaborators with a backend whose dropout hands back a
    float64 array (a mask of that precision promotes the product). *)
Definition float64_collaborators : LayerNorm.Collaborators term bool := {|
  LayerNorm.child_begin_update := fun X drop =>
    ret (App "child" [X; drop], symbolic_child_backprop);
  LayerNorm.child_predict := fun X => ret (App "child_predict" [X]);
  LayerNorm.child_nO := None;
  LayerNorm.child_drop_factor := None;
  LayerNorm.ops_dropout := fun y rate =>
    ret (App "as_float64" [App "dropout" [y; rate]],
         symbolic_dropout_wrapper rate)
|}.

(** An optimizer that raises without touching the buffers. *)
Definition failing_sgd : LayerNorm.optimizer term bool :=
  fun m key w => ((m, w), Raise (ExternalError 2)).

(** ** A Keras stand-in for [TensorFlowShim]

    Arrays are integers, a negative one standing for a value that is no
    array; [set_weights] takes as many values as the layer has weights
    and keeps the names. *)
Definition plain_set_weights (layer : list (TensorFlowShim.variable Z))
    (values : list Z) : result (list (TensorFlowShim.variable Z)) :=
  if (length layer =? length values)%nat
  then Ok (zip_with
             (fun w v => TensorFlowShim.mkVariable (TensorFlowShim.name w) v)
             layer values)
  else Raise (ExternalError 3).

Definition plain_backend : TensorFlowShim.Backend Z := {|
  TensorFlowShim.set_weights := plain_set_weights;
  TensorFlowShim.cupy_is_none := true;
  TensorFlowShim.is_numpy_ndarray := fun v => 0 <=? v;
  TensorFlowShim.is_cupy_ndarray := fun _ => false;
  TensorFlowShim.cupy_asnumpy := fun v => v;
  TensorFlowShim.tensorflow2xp := TensorFlowShim.numpy;
  TensorFlowShim.update_averages := fun average param n =>
    average + (param - average) / n;
  TensorFlowShim.nr_update_missing := Ok 0
|}.

(** A model of two layers with three weights. *)
Definition two_dense : list (list (TensorFlowShim.variable Z)) :=
  [[TensorFlowShim.mkVariable "dense/kernel" 1;
    TensorFlowShim.mkVariable "dense/bias" 2];
   [TensorFlowShim.mkVariable "out/kernel" 3]].

(** Parameters for the shim with id 7: all three weights, and one key
    that belongs to another owner. *)
Definition averages : list (TensorFlowShim.key * Z) :=
  [(TensorFlowShim.StrKey "tensorflow_7_dense/kernel", 10);
   (TensorFlowShim.OtherKey 0, 99);
   (TensorFlowShim.StrKey "tensorflow_7_dense/bias", 20);
   (TensorFlowShim.StrKey "tensorflow_7_out/kernel", 30)].

Definition two_dense_averaged : list (list (TensorFlowShim.variable Z)) :=
  [[TensorFlowShim.mkVariable "dense/kernel" 10;
    TensorFlowShim.mkVariable "dense/bias" 20];
   [TensorFlowShim.mkVariable "out/kernel" 30]].

(** What the child returns on the input [X], the rescaled output made
    from it, and the dropout rate for a caller's [drop] of a quarter. *)
Definition child_X : term := App "child" [Sym "X"; Num 0].

Definition rescaled : term :=
  App "add"
    [App "mul" [@LayerNorm.Xhat_of term symbolic_numpy child_X; Sym "G"];
     Sym "b"].

Definition quarter : term :=
  @LayerNorm.effective_rate term bool symbolic_numpy symbolic_collaborators
    (Num 0.25).

End Sample.
(** ** Monad laws used throughout *)

Lemma bind_ret_l {S A B} (a : A) (k : A -> M S B) (s : S) :
  bind (ret a) k s = k a s.
Proof. reflexivity. Qed.

Lemma bind_raise_l {S A B} (e : exn) (k : A -> M S B) (s : S) :
  bind (raise e) k s = (s, Raise e).
Proof. reflexivity. Qed.

Lemma bind_ok {S A B} (c : M S A) (k : A -> M S B) (s s' : S) (a : A) :
  c s = (s', Ok a) -> bind c k s = k a s'.
Proof. intros H. unfold bind. now rewrite H. Qed.

Lemma bind_fail {S A B} (c : M S A) (k : A -> M S B) (s s' : S) (e : exn) :
  c s = (s', Raise e) -> bind c k s = (s', Raise e).
Proof. intros H. unfold bind. now rewrite H. Qed.

Lemma bind_assoc {S A B C} (c : M S A) (k : A -> M S B) (h : B -> M S C)
    (s : S) :
  bind (bind c k) h s = bind c (fun a => bind (k a) h) s.
Proof. unfold bind. destruct (c s) as [s' [a|e]]; reflexivity. Qed.


Lemma for_in_nil {S A L} (body : A -> L -> M S (ctl * L)) (l : L) (s : S) :
  for_in [] body l s = (s, Ok l).
Proof. reflexivity. Qed.

Lemma for_in_cons {S A L} (body : A -> L -> M S (ctl * L)) (x : A)
    (xs : list A) (l : L) (s : S) :
  for_in (x :: xs) body l s =
  match body x l s with
  | (s', Ok (Continue, l')) => for_in xs body l' s'
  | (s', Ok (Break, l')) => (s', Ok l')
  | (s', Raise e) => (s', Raise e)
  end.
Proof.
  cbn [for_in]. unfold bind.
  destruct (body x l s) as [s' [[[|] l']|e]]; reflexivity.
Qed.

(** A loop whose body never breaks, run to the end of [xs ++ [x]], is the
    loop over [xs] followed by one more round. *)
Lemma for_in_snoc {S A L} (body : A -> L -> M S (ctl * L)) (xs : list A)
    (x : A) (l : L) (s : S) :
  (forall y l0 s0 s1 c l1, body y l0 s0 = (s1, Ok (c, l1)) -> c = Continue) ->
  for_in (xs ++ [x]) body l s =
  match for_in xs body l s with
  | (s', Ok l') => for_in [x] body l' s'
  | (s', Raise e) => (s', Raise e)
  end.
Proof.
  intros Hcont. revert l s.
  induction xs as [|y ys IH]; intros l s.
  - rewrite for_in_nil. reflexivity.
  - rewrite <- app_comm_cons, !for_in_cons.
    destruct (body y l s) as [s' [[c l']|e]] eqn:Hb; [|reflexivity].
    rewrite (Hcont _ _ _ _ _ _ Hb). apply IH.
Qed.

(** * Theorems on [thinc/layers/chain.py] *)

Section ChainTheorems.
Context {V W : Type} `{!Chain.Collaborators V W}.
Import Chain.

Lemma deref_lookup (s : state W) (l : loc) (m : Model) :
  heap s !! l = Some m -> deref l s = (s, Ok m).
Proof. intros Hl. unfold deref. now rewrite Hl. Qed.

(** Run a [deref] that stands first in a computation, given the object
    at that address. *)
Ltac run_deref H := rewrite (bind_ok _ _ _ _ _ (deref_lookup _ _ _ H)).

(** The loop of [forward], started in the middle of a pass. *)
Lemma forward_loop (is_train : bool) (ls : list loc) :
  forall (cbs : list (callback V W)) (X : V) (Y : option V) (s : state W),
    for_in ls
      (fun layer vars =>
         let* (Y, inc_layer_grad) := call_layer layer (cur_X vars) is_train in
         ret (Continue,
              mkForwardLocals (callbacks vars ++ [inc_layer_grad]) Y (Some Y)))
      (mkForwardLocals cbs X Y) s =
    match feed_in_order ls X is_train s with
    | (s', Ok (Z, cbs')) =>
        (s', Ok (mkForwardLocals (cbs ++ cbs') Z
                   (match ls with [] => Y | _ :: _ => Some Z end)))
    | (s', Raise e) => (s', Raise e)
    end.
Proof.
  induction ls as [|layer rest IH]; intros cbs X Y s.
  - cbn. unfold ret. now rewrite app_nil_r.
  - rewrite for_in_cons. cbn [feed_in_order cur_X callbacks]. unfold bind at 1 3.
    destruct (call_layer layer X is_train s) as [s1 [[Y1 cb]|e]]; [|reflexivity].
    cbn [ret]. rewrite IH. unfold bind.
    destruct rest as [|layer' rest'].
    + cbn. unfold ret. now rewrite <- app_assoc.
    + destruct (feed_in_order (layer' :: rest') Y1 is_train s1)
        as [s2 [[Z cbs']|e]]; [|reflexivity].
      unfold ret. now rewrite <- app_assoc.
Qed.

(** The loop of [backprop], started in the middle of a pass. *)
Lemma backprop_loop (cbs : list (callback V W)) :
  forall (dY : V) (dX : option V) (s : state W),
    for_in (rev cbs)
      (fun callback vars =>
         let* dX := callback (cur_dY vars) in
         ret (Continue, mkBackpropLocals dX (Some dX)))
      (mkBackpropLocals dY dX) s =
    match unwind_in_reverse cbs dY s with
    | (s', Ok d) =>
        (s', Ok (mkBackpropLocals d
                   (match cbs with [] => dX | _ :: _ => Some d end)))
    | (s', Raise e) => (s', Raise e)
    end.
Proof.
  induction cbs as [|cb later IH]; intros dY dX s.
  - reflexivity.
  - cbn [rev]. rewrite for_in_snoc.
    2:{ intros y l0 s0 s1 c l1. unfold bind, ret.
        destruct (y (cur_dY l0) s0) as [? [?|?]]; congruence. }
    rewrite IH. cbn [unwind_in_reverse]. unfold bind at 2.
    destruct (unwind_in_reverse later dY s) as [s1 [d|e]]; [|reflexivity].
    rewrite for_in_cons. cbn [cur_dY]. unfold bind, ret.
    destruct (cb d s1) as [s2 [d'|e]]; reflexivity.
Qed.

Lemma backprop_unwinds (cbs : list (callback V W)) (dY : V) (s : state W) :
  cbs <> [] -> backprop cbs dY s = unwind_in_reverse cbs dY s.
Proof.
  intros Hne. unfold backprop, bind. rewrite backprop_loop.
  destruct (unwind_in_reverse cbs dY s) as [s' [d|e]]; [|reflexivity].
  destruct cbs; [congruence|reflexivity].
Qed.

(** C1. For a chained model with a nonempty sublayer list, [forward]
    feeds the input through the sublayers in order with the training flag
    unchanged, collects their backward closures in invocation order and
    returns the last sublayer's output together with [backprop] over the
    collected closures; [backprop] applies the closures in reverse order,
    each on the gradient produced by the closures of the later layers. In
    particular, over two layers [f] and [g] the output is [g (f x)] and
    the backward closure runs [g]'s closure, then [f]'s. *)
Theorem chain_forward_composes (s : state W) (model : loc) (m : Model)
    (X : V) (is_train : bool) :
  heap s !! model = Some m ->
  layers m <> [] ->
  forward model X is_train s =
    (let* (Y, cbs) := feed_in_order (layers m) X is_train in
     ret (Y, backprop cbs)) s
  /\ (forall (cbs : list (callback V W)) dY s', cbs <> [] ->
        backprop cbs dY s' = unwind_in_reverse cbs dY s')
  /\ (forall f g s1 s2 Y1 Y2 (cf cg : callback V W),
        layers m = [f; g] ->
        call_layer f X is_train s = (s1, Ok (Y1, cf)) ->
        call_layer g Y1 is_train s1 = (s2, Ok (Y2, cg)) ->
        forward model X is_train s = (s2, Ok (Y2, backprop [cf; cg]))
        /\ forall dY s', backprop [cf; cg] dY s' = (let* d := cg dY in cf d) s').
Proof.
  intros Hm Hne.
  assert (Hfwd : forward model X is_train s =
            (let* (Y, cbs) := feed_in_order (layers m) X is_train in
             ret (Y, backprop cbs)) s).
  { unfold forward. run_deref Hm.
    unfold bind at 1. rewrite forward_loop. unfold bind.
    destruct (feed_in_order (layers m) X is_train s) as [s' [[Z cbs]|e]];
      [|reflexivity].
    cbn [cur_Y callbacks app]. destruct (layers m); [congruence|reflexivity]. }
  split; [exact Hfwd|]. split.
  - intros cbs dY s' Hcbs. now apply backprop_unwinds.
  - intros f g s1 s2 Y1 Y2 cf cg Hls Hf Hg. split.
    + rewrite Hfwd, Hls. cbn [feed_in_order]. unfold bind.
      rewrite Hf, Hg. reflexivity.
    + intros dY s'. rewrite backprop_unwinds by congruence.
      cbn [unwind_in_reverse]. unfold bind, ret.
      destruct (cg dY s') as [? [?|?]]; reflexivity.
Qed.

Lemma set_dims_same (m : Model) : set_dims m (dims m) = m.
Proof. now destruct m. Qed.

Lemma store_same (s : state W) (l : loc) (m : Model) :
  heap s !! l = Some m ->
  mkState (<[l:=set_dims m (dims m)]> (heap s)) (world s) = s.
Proof.
  intros Hl. rewrite set_dims_same, (insert_id _ _ _ Hl). now destruct s.
Qed.

(** Chaining onto a chain extends it where it stands. *)
Lemma chain_extends_first (s : state W) (C : loc) (mC : Model)
    (rest : list loc) :
  heap s !! C = Some mC ->
  _func mC = ChainForward ->
  chain (C :: rest) s =
    (mkState (<[C:=set_layers mC (layers mC ++ rest)]> (heap s)) (world s),
     Ok C).
Proof.
  intros HC Hf. unfold chain.
  run_deref HC.
  rewrite bool_decide_true by exact Hf.
  unfold bind at 1. unfold bind at 1.
  rewrite (deref_lookup _ _ _ HC). reflexivity.
Qed.


(** C6. On a composite without sublayers, [init] returns at once and
    leaves the store as it was, with or without sample data, and
    [forward] raises (the name [Y] was never bound) instead of returning
    its input. *)
Theorem chain_empty_composite (s : state W) (model : loc) (m : Model) :
  heap s !! model = Some m ->
  layers m = [] ->
  (forall X Y, init model X Y s = (s, Ok tt))
  /\ (forall X is_train,
        forward model X is_train s = (s, Raise (UnboundLocalError "Y"))).
Proof.
  intros Hm Hls. split.
  - intros X Y. unfold init.
    run_deref Hm.
    now rewrite Hls.
  - intros X is_train. unfold forward.
    run_deref Hm.
    now rewrite Hls.
Qed.



End ChainTheorems.

(** ** The chain theorems on the sample layers *)

Section ChainOnSample.
Import Chain Sample.
#[local] Existing Instance chain_collaborators.

(** [chain(a, b)] on plain layers makes the composite of the sample. *)
Example chain_builds_composite :
  chain [1%nat; 2%nat] three_layers = (chained, Ok 4%nat).
Proof. vm_compute. reflexivity. Qed.

Example chain_builds_degenerate :
  chain [] three_layers = (degenerate, Ok 4%nat).
Proof. vm_compute. reflexivity. Qed.

Lemma chain_forward_composes_witness :
  forward 4%nat 5 true chained =
    (chained, Ok (512, backprop [digit_callback 1%nat; digit_callback 2%nat]))
  /\ backprop [digit_callback 1%nat; digit_callback 2%nat] 7 chained =
       (chained, Ok 721).
Proof.
  destruct (chain_forward_composes chained 4%nat chain_ab 5 true
              eq_refl ltac:(discriminate)) as (_ & _ & Htwo).
  destruct (Htwo 1%nat 2%nat chained chained 51 512
              (digit_callback 1%nat) (digit_callback 2%nat)
              eq_refl eq_refl eq_refl) as [Hfwd Hbwd].
  split; [exact Hfwd|]. rewrite Hbwd. reflexivity.
Defined.


Lemma chain_empty_composite_witness :
  init 4%nat (Some 1) None degenerate = (degenerate, Ok tt)
  /\ init 4%nat None None degenerate = (degenerate, Ok tt)
  /\ forward 4%nat 5 true degenerate =
       (degenerate, Raise (UnboundLocalError "Y")).
Proof.
  destruct (chain_empty_composite degenerate 4%nat chain_of_nothing
              eq_refl eq_refl) as [Hi Hf].
  split; [apply Hi|]. split; [apply Hi|apply Hf].
Defined.


(** Layer "b" declares [nI] without a value: the sample [has_dim]
    answers [None], which is not true, and the walk ends at "b" without
    reaching "a". *)
Example reverse_walk_stops_at_unset :
  infer_widths 4%nat (Some 7) chained =
    (mkState
       (<[2%nat := plain "b" (<["nO":=Some 7]> (<["nI":=None]> (<["nO":=None]> ∅)))]>
          (heap chained)) tt,
     Ok (Some 7)).
Proof. vm_compute. reflexivity. Qed.

End ChainOnSample.

(** * Theorems on [thinc/layers/meanpool.py] *)

Section MeanPoolTheorems.
Context {Arr Lens B : Type} `{!MeanPool.Ops Arr Lens B}.
Import MeanPool.

(** C5. [forward] on [(X, lengths)] returns the backend's
    [mean_pool(X, lengths)]; its backward closure returns, for every
    [dY], the pair of [backprop_mean_pool(dY, lengths)] and the very
    [lengths] of the forward input. The store changes as the backend
    calls change it and in no other way, a raise of the backend is
    passed on, and the model has no parameters, dimensions or
    sublayers. *)
Theorem meanpool_forward_backward (model : Model) (X : Arr) (lengths : Lens)
    (is_train : bool) (s : B) :
  forward model (X, lengths) is_train s =
    match mean_pool X lengths s with
    | (s', Ok Y) => (s', Ok (Y, backprop lengths))
    | (s', Raise e) => (s', Raise e)
    end
  /\ (forall dY s0,
        backprop lengths dY s0 =
        match backprop_mean_pool dY lengths s0 with
        | (s', Ok dX) => (s', Ok (dX, lengths))
        | (s', Raise e) => (s', Raise e)
        end)
  /\ params MeanPool = [] /\ layers MeanPool = [] /\ dims MeanPool = ∅.
Proof.
  split; [|split; [|now repeat split]].
  - unfold forward, bind, ret.
    destruct (mean_pool X lengths s) as [s' [Y|e]]; reflexivity.
  - intros dY s0. unfold backprop, bind, ret.
    destruct (backprop_mean_pool dY lengths s0) as [s' [dX|e]]; reflexivity.
Qed.

End MeanPoolTheorems.

(** * Theorems on [thinc/neural/_classes/layernorm.py] *)

Section LayerNormTheorems.
Context {T W : Type} {np : LayerNorm.Numpy T}
  {co : LayerNorm.Collaborators T W}.
Import LayerNorm.

(** The affine backward step: accumulate, update if asked to, and pass
    the gradient times the scale as it is after the update. *)
Lemma scale_shift_finish_update_spec (self_id : Z) (Xhat dy : T)
    (sgd : option (optimizer T W)) (st : state T W) :
  scale_shift_finish_update self_id Xhat dy sgd st =
  match optimizer_update sgd self_id (accumulated (mem st) dy Xhat) (world st)
  with
  | ((m2, w2), Ok _) =>
      (mkState m2 w2 (log st ++ optimizer_events sgd self_id),
       Ok (mul dy (G m2)))
  | ((m2, w2), Raise e) =>
      (mkState m2 w2 (log st ++ optimizer_events sgd self_id), Raise e)
  end.
Proof.
  unfold scale_shift_finish_update, accumulated, optimizer_update,
    optimizer_events, call_sgd, bind, get_mem, set_mem, emit, ret.
  cbn [mem world log G b d_G d_b].
  destruct sgd as [f|]; cbn [mem world log].
  - destruct (f _ self_id (world st)) as [[m2 w2] [[]|e]]; reflexivity.
  - now rewrite app_nil_r.
Qed.

(** The whole backward closure of [begin_update]. *)
Lemma finish_update_spec (self_id : Z) (X N mu var Xhat dy : T)
    (bpc : child_backprop T W) (sgd : option (optimizer T W))
    (st : state T W) :
  finish_update X N mu var (scale_shift_finish_update self_id Xhat) bpc
    dy sgd st =
  match optimizer_update sgd self_id (accumulated (mem st) dy Xhat) (world st)
  with
  | ((m2, w2), Ok _) =>
      let d_xhat := d_xhat_formula N (mul dy (G m2)) (sub X mu) var in
      let (w3, r) := bpc d_xhat sgd w2 in
      (mkState m2 w3
         (log st ++ optimizer_events sgd self_id ++ [EvChildBackprop d_xhat]),
       r)
  | ((m2, w2), Raise e) =>
      (mkState m2 w2 (log st ++ optimizer_events sgd self_id), Raise e)
  end.
Proof.
  unfold finish_update. unfold bind at 1.
  rewrite scale_shift_finish_update_spec.
  destruct (optimizer_update sgd self_id _ (world st)) as [[m2 w2] [[]|e]];
    [|reflexivity].
  unfold _get_d_moments, d_xhat_formula, bind, emit, lift_world.
  cbn [mem world log]. rewrite <- app_assoc. reflexivity.
Qed.

(** [begin_update], call by call. *)
Lemma begin_update_unfold (self_id : Z) (X drop : T) (s : state T W) :
  begin_update self_id X drop s =
  match child_begin_update X (lit 0) (world s) with
  | (w1, Raise e) =>
      (mkState (mem s) w1 (log s ++ [EvChildBeginUpdate X (lit 0)]), Raise e)
  | (w1, Ok (X1, bpc)) =>
      let y := add (mul (Xhat_of X1) (G (mem s))) (b (mem s)) in
      let calls :=
        log s ++ [EvChildBeginUpdate X (lit 0);
                  EvDropout y (effective_rate drop)] in
      match ops_dropout y (effective_rate drop) w1 with
      | (w2, Raise e) => (mkState (mem s) w2 calls, Raise e)
      | (w2, Ok (y', wrap)) =>
          if bool_decide (dtype_of y' = Float32)
          then (mkState (mem s) w2 calls,
                Ok (y', wrap (finish_update X1 (N_of X1) (mu_of X1)
                                (var_of X1)
                                (scale_shift_finish_update self_id (Xhat_of X1))
                                bpc)))
          else (mkState (mem s) w2 calls, Raise AssertionError)
      end
  end.
Proof.
  unfold begin_update, bind, emit, lift_world. cbn [mem world log].
  destruct (child_begin_update X (lit 0) (world s)) as [w1 [[X1 bpc]|e]];
    [|reflexivity].
  unfold _get_moments, _begin_update_scale_shift, bind, get_mem, ret, emit.
  cbn [mem world log]. rewrite <- app_assoc. cbn [app].
  change (mul (sub X1 (mean_axis1 X1))
            (pow (add (var_axis1 X1) (lit 1e-08)) (lit (-1 / 2))))
    with (Xhat_of X1).
  change (mul drop (getattr child_drop_factor (asarray_f [PyFloat 1])))
    with (effective_rate drop).
  destruct (ops_dropout _ (effective_rate drop) w1) as [w2 [[y' wrap]|e]];
    [|reflexivity].
  destruct (bool_decide (dtype_of y' = Float32)); reflexivity.
Qed.

(** C2. A training-mode [begin_update] whose child and dropout calls
    return, and whose output passes the dtype check, returns the
    dropout's wrapper around a closure that, on a gradient [dy]: adds
    [sum(dy)] over the batch axis to [d_b] and [sum(dy * Xhat)] to [d_G],
    runs the optimizer (when one is given) on the layer's buffers under
    the layer's id, passes on [dy' = dy * G], forms
    [d_xhat = (N*dy' - sum(dy') - dist * var^-1 * sum(dy'*dist))
              * var^-0.5 / N]
    with [dist = X - mu], [N] the feature count and [var] the row
    variance plus [1e-8], and returns what the child's backward closure
    returns on [d_xhat]. *)
Theorem layernorm_backward (self_id : Z) (X drop : T) (s : state T W)
    (w1 w2 : W) (X1 y' : T) (bpc : child_backprop T W)
    (wrap : closure T W -> closure T W) :
  child_begin_update X (lit 0) (world s) = (w1, Ok (X1, bpc)) ->
  ops_dropout (add (mul (Xhat_of X1) (G (mem s))) (b (mem s)))
    (effective_rate drop) w1 = (w2, Ok (y', wrap)) ->
  dtype_of y' = Float32 ->
  let fu : closure T W :=
    finish_update X1 (N_of X1) (mu_of X1) (var_of X1)
      (scale_shift_finish_update self_id (Xhat_of X1)) bpc in
  snd (begin_update self_id X drop s) = Ok (y', wrap fu)
  /\ forall dy sgd st m2 w3,
         optimizer_update sgd self_id
           (accumulated (mem st) dy (Xhat_of X1)) (world st)
         = ((m2, w3), Ok tt) ->
         let dy' := mul dy (G m2) in
         let d_xhat :=
           d_xhat_formula (N_of X1) dy' (sub X1 (mu_of X1)) (var_of X1) in
         fu dy sgd st =
         (let (w4, r) := bpc d_xhat sgd w3 in
          (mkState m2 w4
             (log st ++ optimizer_events sgd self_id
                ++ [EvChildBackprop d_xhat]),
           r)).
Proof.
  intros Hchild Hdrop Hdtype fu. split.
  - rewrite begin_update_unfold, Hchild. cbn zeta. rewrite Hdrop.
    rewrite bool_decide_true by exact Hdtype. reflexivity.
  - intros dy sgd st m2 w3 Hopt. cbn zeta. unfold fu.
    rewrite finish_update_spec, Hopt. reflexivity.
Qed.

(** C7. When the affine backward step has completed and the child's
    backward closure then raises, the closure of [begin_update] raises
    that same error, and the layer's memory is what the affine step left:
    with no optimizer, [d_b] and [d_G] hold their sums. Nothing is rolled
    back and no error is caught; an error of the affine step itself is
    passed on as well. *)
Theorem layernorm_backward_not_atomic (self_id : Z) (X N mu var Xhat dy : T)
    (bpc : child_backprop T W) (sgd : option (optimizer T W))
    (st st1 : state T W) (dy' : T) (w2 : W) (e : exn) :
  scale_shift_finish_update self_id Xhat dy sgd st = (st1, Ok dy') ->
  bpc (d_xhat_formula N dy' (sub X mu) var) sgd (world st1) = (w2, Raise e) ->
  (exists st2,
      finish_update X N mu var (scale_shift_finish_update self_id Xhat) bpc
        dy sgd st = (st2, Raise e)
      /\ mem st2 = mem st1
      /\ world st2 = w2
      /\ (sgd = None ->
          d_b (mem st2) = add (d_b (mem st)) (sum_axis0 dy)
          /\ d_G (mem st2) = add (d_G (mem st)) (sum_axis0 (mul dy Xhat))))
  /\ (forall st' e',
        scale_shift_finish_update self_id Xhat dy sgd st = (st', Raise e') ->
        finish_update X N mu var (scale_shift_finish_update self_id Xhat) bpc
          dy sgd st = (st', Raise e')).
Proof.
  intros Haffine Hchild. split.
  - rewrite scale_shift_finish_update_spec in Haffine.
    rewrite finish_update_spec.
    destruct (optimizer_update sgd self_id _ (world st))
      as [[m2 w3] [[]|e0]] eqn:Hopt; [|congruence].
    injection Haffine as <- <-. cbn [world] in Hchild. cbn zeta.
    rewrite Hchild. eexists. split; [reflexivity|].
    cbn [mem world]. repeat split.
    + subst sgd. cbn in Hopt. now injection Hopt as <- _.
    + subst sgd. cbn in Hopt. now injection Hopt as <- _.
  - intros st' e' Hfail. unfold finish_update, bind. now rewrite Hfail.
Qed.


(** The assertion can fail: a dropout result that is not float32 makes
    the call raise. *)
Lemma begin_update_asserts (self_id : Z) (X drop : T) (s : state T W)
    (w1 w2 : W) (X1 y' : T) (bpc : child_backprop T W)
    (wrap : closure T W -> closure T W) :
  child_begin_update X (lit 0) (world s) = (w1, Ok (X1, bpc)) ->
  ops_dropout (add (mul (Xhat_of X1) (G (mem s))) (b (mem s)))
    (effective_rate drop) w1 = (w2, Ok (y', wrap)) ->
  dtype_of y' <> Float32 ->
  snd (begin_update self_id X drop s) = Raise AssertionError.
Proof.
  intros Hchild Hdrop Hdtype.
  rewrite begin_update_unfold, Hchild. cbn zeta. rewrite Hdrop.
  now rewrite bool_decide_false by exact Hdtype.
Qed.

(** C9. Without an [nO] keyword and with a child whose [nO] is missing
    (or [None], or zero), [__init__] assigns no [nO] at all, and the
    shape functions of [G] and [b], which resolve the width, raise
    [AttributeError]: no default width is put in its place. *)
Theorem layernorm_width_unresolved (kwargs : gmap string (option Z)) :
  kwargs !! "nO" = None ->
  width_truthy (getattr child_nO None) = false ->
  nO (__init__ kwargs) = None
  /\ G_shape (__init__ kwargs) = Raise (AttributeError "nO")
  /\ b_shape (__init__ kwargs) = Raise (AttributeError "nO").
Proof.
  intros Hkw Hchild.
  assert (HnO : nO (__init__ kwargs) = None).
  { unfold __init__. cbn [nO]. now rewrite Hkw, Hchild. }
  unfold G_shape, b_shape. now rewrite HnO.
Qed.

(** C10. In a training-mode [begin_update] whose child call returns,
    the layer calls the child once, with the dropout rate [0.], and the
    backend's dropout once, on the rescaled output [Xhat * G + b], with
    the caller's [drop] times the child's [drop_factor] (times a one
    when the child has none); it makes no other call, so [drop] reaches
    the child in no way. *)
Theorem layernorm_dropout_once (self_id : Z) (X drop : T) (s : state T W)
    (w1 : W) (X1 : T) (bpc : child_backprop T W) :
  child_begin_update X (lit 0) (world s) = (w1, Ok (X1, bpc)) ->
  log (fst (begin_update self_id X drop s)) =
    log s ++ [EvChildBeginUpdate X (lit 0);
              EvDropout (add (mul (Xhat_of X1) (G (mem s))) (b (mem s)))
                (effective_rate drop)]
  /\ effective_rate drop =
       mul drop (match child_drop_factor with
                 | Some factor => factor
                 | None => asarray_f [PyFloat 1.0]
                 end)
  /\ forall drop',
       world (fst (begin_update self_id X drop' s)) =
       fst (ops_dropout (add (mul (Xhat_of X1) (G (mem s))) (b (mem s)))
              (effective_rate drop') w1).
Proof.
  intros Hchild. split; [|split].
  - rewrite begin_update_unfold, Hchild. cbn zeta.
    destruct (ops_dropout _ (effective_rate drop) w1) as [w2 [[y' wrap]|e]];
      [|reflexivity].
    destruct (bool_decide (dtype_of y' = Float32)); reflexivity.
  - unfold effective_rate, getattr. reflexivity.
  - intros drop'. rewrite begin_update_unfold, Hchild. cbn zeta.
    destruct (ops_dropout _ (effective_rate drop') w1) as [w2 [[y' wrap]|e]];
      [|reflexivity].
    destruct (bool_decide (dtype_of y' = Float32)); reflexivity.
Qed.

End LayerNormTheorems.

(** ** The layer-normalisation theorems on the symbolic backend *)

Section LayerNormOnSample.
Import LayerNorm Sample.
#[local] Existing Instance symbolic_numpy.
#[local] Existing Instance symbolic_collaborators.

Lemma layernorm_backward_witness :
  let fu : closure term bool :=
    finish_update child_X (N_of child_X) (mu_of child_X) (var_of child_X)
      (scale_shift_finish_update 7 (Xhat_of child_X))
      symbolic_child_backprop in
  snd (begin_update 7 (Sym "X") (Num 0.25) (symbolic_state false)) =
    Ok (App "dropout" [rescaled; quarter], symbolic_dropout_wrapper quarter fu)
  /\ fu (Sym "dy") None (symbolic_state false) =
     (mkState (accumulated symbolic_memory (Sym "dy") (Xhat_of child_X))
        false
        [EvChildBackprop
           (d_xhat_formula (N_of child_X) (mul (Sym "dy") (Sym "G"))
              (sub child_X (mu_of child_X)) (var_of child_X))],
      Ok (App "child_backprop"
            [d_xhat_formula (N_of child_X) (mul (Sym "dy") (Sym "G"))
               (sub child_X (mu_of child_X)) (var_of child_X)])).
Proof.
  destruct (layernorm_backward (np := symbolic_numpy)
              (co := symbolic_collaborators) 7 (Sym "X") (Num 0.25)
              (symbolic_state false)
              false false child_X (App "dropout" [rescaled; quarter])
              symbolic_child_backprop (symbolic_dropout_wrapper quarter)
              ltac:(reflexivity) ltac:(reflexivity) ltac:(reflexivity))
    as [Hret Hfu].
  split; [exact Hret|].
  exact (Hfu (Sym "dy") None (symbolic_state false) _ _ ltac:(reflexivity)).
Defined.

(** A broken child: the error comes out and [d_b], [d_G] keep the sums. *)
Lemma layernorm_backward_not_atomic_witness :
  exists st2,
    finish_update child_X (N_of child_X) (mu_of child_X) (var_of child_X)
      (scale_shift_finish_update 7 (Xhat_of child_X)) symbolic_child_backprop
      (Sym "dy") None (symbolic_state true) = (st2, Raise (ExternalError 1))
    /\ d_b (mem st2) = App "add" [Sym "d_b"; App "sum_axis0" [Sym "dy"]]
    /\ d_G (mem st2) =
         App "add" [Sym "d_G";
                    App "sum_axis0" [App "mul" [Sym "dy"; Xhat_of child_X]]].
Proof.
  destruct (layernorm_backward_not_atomic (np := symbolic_numpy) 7 child_X (N_of child_X)
              (mu_of child_X) (var_of child_X) (Xhat_of child_X) (Sym "dy")
              symbolic_child_backprop None (symbolic_state true)
              (mkState (accumulated symbolic_memory (Sym "dy") (Xhat_of child_X))
                 true [])
              (mul (Sym "dy") (Sym "G")) true (ExternalError 1)
              ltac:(reflexivity) ltac:(reflexivity)) as [(st2 & Hrun & _ & _ & Hacc) _].
  exists st2. split; [exact Hrun|]. exact (Hacc eq_refl).
Defined.


Lemma layernorm_width_unresolved_witness :
  nO (__init__ ∅) = None
  /\ G_shape (__init__ ∅) = Raise (AttributeError "nO")
  /\ b_shape (__init__ ∅) = Raise (AttributeError "nO").
Proof.
  apply (layernorm_width_unresolved (co := symbolic_collaborators)
           (∅ : gmap string (option Z))); vm_compute; reflexivity.
Defined.

Lemma layernorm_dropout_once_witness :
  log (fst (begin_update 7 (Sym "X") (Num 0.25) (symbolic_state false))) =
    [EvChildBeginUpdate (Sym "X") (Num 0);
     EvDropout rescaled (App "mul" [Num 0.25; App "asarray_f" [Num 1]])].
Proof.
  exact (proj1 (layernorm_dropout_once (np := symbolic_numpy)
              (co := symbolic_collaborators) 7 (Sym "X") (Num 0.25)
                  (symbolic_state false) false child_X symbolic_child_backprop
                  ltac:(reflexivity))).
Defined.

(** With an explicit width, or a child that has one, the width resolves. *)
Example layernorm_width_given :
  G_shape (__init__ (<["nO":=Some 5]> ∅)) = Ok [Some 5].
Proof. reflexivity. Qed.

(** A float64 array out of dropout trips the assertion. *)
Example float64_is_refused :
  dtype_of (App "as_float64" [rescaled]) = Float64.
Proof. reflexivity. Qed.

End LayerNormOnSample.

(** * Further properties of [thinc/layers/chain.py] *)

Section ChainFurther.
Context {V W : Type} `{!Chain.Collaborators V W}.
Import Chain.

Ltac at_object H := rewrite (bind_ok _ _ _ _ _ (deref_lookup _ _ _ H)).

Lemma feed_in_order_app (is_train : bool) (ls1 ls2 : list loc) :
  forall (X : V) (s : state W),
    feed_in_order (ls1 ++ ls2) X is_train s =
    (let* (Y, c1) := feed_in_order ls1 X is_train in
     let* (Z, c2) := feed_in_order ls2 Y is_train in
     ret (Z, c1 ++ c2)) s.
Proof.
  induction ls1 as [|layer rest IH]; intros X s.
  - cbn [app feed_in_order]. rewrite bind_ret_l. unfold bind.
    destruct (feed_in_order ls2 X is_train s) as [s' [[Z c2]|e]]; reflexivity.
  - cbn [app feed_in_order]. unfold bind.
    destruct (call_layer layer X is_train s) as [s1 [[Y1 cb]|e]]; [|reflexivity].
    rewrite IH. unfold bind, ret.
    destruct (feed_in_order rest Y1 is_train s1) as [s2 [[Y c1]|e]];
      [|reflexivity].
    destruct (feed_in_order ls2 Y is_train s2) as [s3 [[Z c2]|e]]; reflexivity.
Qed.

Lemma unwind_in_reverse_app (c1 c2 : list (callback V W)) :
  forall (dZ : V) (s : state W),
    unwind_in_reverse (c1 ++ c2) dZ s =
    (let* dY := unwind_in_reverse c2 dZ in unwind_in_reverse c1 dY) s.
Proof.
  induction c1 as [|cb later IH]; intros dZ s.
  - cbn [app unwind_in_reverse]. unfold bind, ret.
    destruct (unwind_in_reverse c2 dZ s) as [s' [d|e]]; reflexivity.
  - cbn [app unwind_in_reverse]. unfold bind at 1. rewrite IH.
    unfold bind.
    destruct (unwind_in_reverse c2 dZ s) as [s1 [dY|e]]; reflexivity.
Qed.

(** [forward] on a model, by way of its sublayer list. *)
Lemma forward_feeds (s : state W) (model : loc) (m : Model) (X : V)
    (is_train : bool) :
  heap s !! model = Some m ->
  layers m <> [] ->
  forward model X is_train s =
  match feed_in_order (layers m) X is_train s with
  | (s', Ok (Y, cbs)) => (s', Ok (Y, backprop cbs))
  | (s', Raise e) => (s', Raise e)
  end.
Proof.
  intros Hm Hne. unfold forward. at_object Hm.
  unfold bind at 1. rewrite forward_loop.
  destruct (feed_in_order (layers m) X is_train s) as [s' [[Z cbs]|e]];
    [|reflexivity].
  cbn [cur_Y callbacks app]. destruct (layers m); [congruence|reflexivity].
Qed.

(** X1. A sublayer that raises ends the forward pass: the error comes out
    with the store as the raising call left it, and the sublayers after
    it are not called. *)
Theorem forward_stops_at_raise (s s1 s2 : state W) (model : loc) (m : Model)
    (before after : list loc) (layer : loc) (X X1 : V)
    (cbs : list (callback V W)) (is_train : bool) (e : exn) :
  heap s !! model = Some m ->
  layers m = before ++ layer :: after ->
  feed_in_order before X is_train s = (s1, Ok (X1, cbs)) ->
  call_layer layer X1 is_train s1 = (s2, Raise e) ->
  forward model X is_train s = (s2, Raise e).
Proof.
  intros Hm Hls Hbefore Hraise.
  rewrite (forward_feeds _ _ _ _ _ Hm) by (rewrite Hls; now destruct before).
  rewrite Hls, feed_in_order_app. unfold bind at 1. rewrite Hbefore.
  cbn [feed_in_order]. unfold bind. now rewrite Hraise.
Qed.

(** X2. A closure that raises ends the backward pass: the closures of the
    later layers have run, those of the earlier layers are not called. *)
Theorem backprop_stops_at_raise (s s1 s2 : state W)
    (earlier later : list (callback V W)) (cb : callback V W) (dY d : V)
    (e : exn) :
  unwind_in_reverse later dY s = (s1, Ok d) ->
  cb d s1 = (s2, Raise e) ->
  backprop (earlier ++ cb :: later) dY s = (s2, Raise e).
Proof.
  intros Hlater Hraise.
  rewrite backprop_unwinds by now destruct earlier.
  rewrite unwind_in_reverse_app. unfold bind at 1.
  cbn [unwind_in_reverse]. unfold bind at 1. rewrite Hlater, Hraise.
  reflexivity.
Qed.

(** X3. The backward pass over two runs of closures is the pass over the
    later run followed by the pass over the earlier run. *)
Theorem backprop_app (c1 c2 : list (callback V W)) (dZ : V) (s : state W) :
  c1 <> [] ->
  c2 <> [] ->
  backprop (c1 ++ c2) dZ s = (let* dY := backprop c2 dZ in backprop c1 dY) s.
Proof.
  intros H1 H2.
  rewrite backprop_unwinds by now destruct c1.
  rewrite unwind_in_reverse_app. unfold bind.
  rewrite (backprop_unwinds c2) by exact H2.
  destruct (unwind_in_reverse c2 dZ s) as [s1 [dY|e]]; [|reflexivity].
  now rewrite backprop_unwinds.
Qed.

(** X4. After [chain(C, ...rest)] has extended the composite [C], the forward
    pass of [C] is the pass over its old sublayers followed by the pass
    over [rest], and its backward closure runs over all the closures. *)
Theorem extended_chain_forward (s : state W) (C : loc) (mC : Model)
    (rest : list loc) (X : V) (is_train : bool) :
  heap s !! C = Some mC ->
  _func mC = ChainForward ->
  layers mC ++ rest <> [] ->
  (let* c := chain (C :: rest) in forward c X is_train) s =
  (let* _ := chain (C :: rest) in
   let* (Y, c1) := feed_in_order (layers mC) X is_train in
   let* (Z, c2) := feed_in_order rest Y is_train in
   ret (Z, backprop (c1 ++ c2))) s.
Proof.
  intros HC Hf Hne. unfold bind.
  rewrite !(chain_extends_first _ _ _ _ HC Hf).
  set (s' := mkState _ _).
  assert (HC' : heap s' !! C = Some (set_layers mC (layers mC ++ rest)))
    by apply lookup_insert_eq.
  rewrite (forward_feeds _ _ _ _ _ HC') by exact Hne.
  cbn [layers set_layers]. rewrite feed_in_order_app. unfold bind, ret.
  destruct (feed_in_order (layers mC) X is_train s') as [s1 [[Y c1]|e]];
    [|reflexivity].
  destruct (feed_in_order rest Y is_train s1) as [s2 [[Z c2]|e]]; reflexivity.
Qed.

(** The loop that collects the names of the argument layers. *)
Lemma names_loop (s : state W) (ls : list loc) (ms : list Model) :
  Forall2 (fun l mo => heap s !! l = Some mo) ls ms ->
  forall acc,
    for_in ls
      (fun layer acc => let* m := deref layer in ret (Continue, acc ++ [name m]))
      acc s = (s, Ok (acc ++ map name ms)).
Proof.
  induction 1 as [|l mo ls' ms' Hl _ IH]; intros acc.
  - cbn. unfold ret. now rewrite app_nil_r.
  - rewrite for_in_cons. at_object Hl. unfold ret at 1.
    rewrite IH. cbn [map]. now rewrite <- app_assoc.
Qed.

Lemma Forall2_last_pair {A B} (P : A -> B -> Prop) (xs : list A)
    (ys : list B) (x : A) (y : B) :
  P x y -> Forall2 P xs ys -> P (List.last xs x) (List.last ys y).
Proof.
  intros Hxy Hall. revert x y Hxy.
  induction Hall as [|x' y' xs' ys' Hhd Htl IH]; intros x y Hxy; [exact Hxy|].
  destruct Htl; [exact Hhd|]. now apply IH.
Qed.

(** X5. [chain] over layers of which the first is not itself a chain, when
    the test for immediate initialisation fails: one new composite is
    made at an unused address, named by the layers' names joined with
    [">>"], with both dimensions declared and unset and with the
    arguments as its sublayers; no existing object changes. *)
Theorem chain_makes_new_composite (s : state W) (ls : list loc)
    (ms : list Model) :
  Forall2 (fun l mo => heap s !! l = Some mo) ls ms ->
  (forall m0 rest, ms = m0 :: rest -> _func m0 <> ChainForward) ->
  eager ms = false ->
  let l := fresh (dom (heap s)) in
  heap s !! l = None
  /\ chain ls s =
       (mkState
          (<[l:=mkModel (String.concat ">>" (map name ms)) ChainForward
                  (Some ChainInit) (<["nO":=None]> (<["nI":=None]> ∅)) [] ls]>
             (heap s))
          (world s),
        Ok l).
Proof.
  intros Hall Hfirst Heager l.
  assert (Hfresh : heap s !! l = None).
  { apply not_elem_of_dom. apply is_fresh. }
  split; [exact Hfresh|].
  assert (Hnew : chain_new ls s =
            (mkState
               (<[l:=mkModel (String.concat ">>" (map name ms)) ChainForward
                       (Some ChainInit) (<["nO":=None]> (<["nI":=None]> ∅))
                       [] ls]> (heap s))
               (world s),
             Ok l)).
  { unfold chain_new. unfold bind at 1. rewrite (names_loop _ _ _ Hall).
    cbn [app]. unfold bind at 1. unfold new_model at 1. fold l.
    set (s1 := mkState _ _).
    destruct Hall as [|l0 m0 rest ms' Hl0 Hrest].
    - rewrite bind_ret_l. reflexivity.
    - assert (Hne : forall a mo, heap s !! a = Some mo -> heap s1 !! a = Some mo).
      { intros a mo Ha. subst s1. cbn [heap].
        rewrite lookup_insert_ne; [exact Ha|]. intros ->. congruence. }
      unfold model_has_dim at 1. rewrite !bind_assoc.
      at_object (Hne _ _ Hl0). rewrite bind_ret_l.
      cbn [eager] in Heager.
      destruct (truthy (has_dim (dims m0) "nI")) eqn:HnI.
      + cbn [andb] in Heager. unfold model_has_dim. rewrite !bind_assoc.
        at_object (Hne _ _ (Forall2_last_pair _ _ _ _ _ Hl0 Hrest)).
        rewrite !bind_ret_l, Heager. reflexivity.
      + rewrite !bind_ret_l. reflexivity. }
  destruct Hall as [|l0 m0 rest ms' Hl0 Hrest]; [exact Hnew|].
  unfold chain. at_object Hl0.
  rewrite bool_decide_false by (eapply Hfirst; reflexivity).
  exact Hnew.
Qed.

(** ** The reverse walk changes dimensions only *)

Lemma same_but_dims_refl (visited : list loc) (s : state W) :
  same_but_dims visited s s.
Proof. split; [reflexivity|]. intros l. now left. Qed.

Lemma same_but_dims_trans (visited : list loc) (s1 s2 s3 : state W) :
  same_but_dims visited s1 s2 ->
  same_but_dims visited s2 s3 ->
  same_but_dims visited s1 s3.
Proof.
  intros [Hw12 H12] [Hw23 H23]. split; [congruence|].
  intros l. destruct (H23 l) as [Heq|(Hin & mo2 & d & Hl2 & Hl3)].
  - rewrite Heq. apply H12.
  - right. split; [exact Hin|].
    destruct (H12 l) as [Heq|(_ & mo1 & d' & Hl1 & Hl2')].
    + exists mo2, d. split; congruence.
    + exists mo1, d. split; [exact Hl1|].
      rewrite Hl3. f_equal. replace mo2 with (set_dims mo1 d') by congruence.
      reflexivity.
Qed.

Lemma same_but_dims_weaken (v1 v2 : list loc) (s s' : state W) :
  (forall l, l ∈ v1 -> l ∈ v2) ->
  same_but_dims v1 s s' ->
  same_but_dims v2 s s'.
Proof.
  intros Hsub [Hw Hh]. split; [exact Hw|].
  intros l. destruct (Hh l) as [Heq|(Hin & Hrest)]; [now left|].
  right. split; [now apply Hsub|exact Hrest].
Qed.

Lemma model_has_dim_reads (l : loc) (k : string) (s : state W) :
  fst (model_has_dim l k s) = s.
Proof.
  unfold model_has_dim, bind, deref, ret. now destruct (heap s !! l).
Qed.

Lemma model_get_dim_reads (l : loc) (k : string) (s : state W) :
  fst (model_get_dim l k s) = s.
Proof.
  unfold model_get_dim, bind, deref, lift_result.
  now destruct (heap s !! l).
Qed.

Lemma model_set_dim_frame (l : loc) (k : string) (v : option Z)
    (s : state W) :
  same_but_dims [l] s (fst (model_set_dim l k v s)).
Proof.
  unfold model_set_dim, bind, deref, lift_result, store.
  destruct (heap s !! l) as [mo|] eqn:Hl; [|apply same_but_dims_refl].
  destruct (set_dim (dims mo) k v) as [d|e]; [|apply same_but_dims_refl].
  split; [reflexivity|]. intros l'. cbn [heap fst].
  destruct (decide (l' = l)) as [->|Hne].
  - right. split; [apply list_elem_of_singleton; reflexivity|].
    exists mo, d. split; [exact Hl|apply lookup_insert_eq].
  - left. now apply lookup_insert_ne.
Qed.

Lemma infer_step_frame (layer : loc) (nO : option Z) (s : state W) :
  same_but_dims [layer] s (fst (infer_step layer nO s)).
Proof.
  unfold infer_step.
  set (first_half := match nO with Some _ => _ | None => _ end).
  assert (Hfirst : same_but_dims [layer] s (fst (first_half s))).
  { subst first_half. destruct nO as [w|]; [|apply same_but_dims_refl].
    unfold bind at 1.
    pose proof (model_has_dim_reads layer "nO" s) as Hr.
    destruct (model_has_dim layer "nO" s) as [s0 [[hb|]|e]];
      cbn [fst] in Hr; subst s0; try apply same_but_dims_refl.
    apply model_set_dim_frame. }
  unfold bind at 1.
  destruct (first_half s) as [s1 [[]|e]]; cbn [fst] in Hfirst; [|exact Hfirst].
  unfold bind at 1.
  pose proof (model_has_dim_reads layer "nI" s1) as Hr.
  destruct (model_has_dim layer "nI" s1) as [s2 [h|e]];
    cbn [fst] in Hr; subst s2; [|exact Hfirst].
  destruct (truthy h); [|exact Hfirst].
  unfold bind.
  pose proof (model_get_dim_reads layer "nI" s1) as Hr.
  destruct (model_get_dim layer "nI" s1) as [s2 [v|e]];
    cbn [fst] in Hr; subst s2; exact Hfirst.
Qed.

Lemma reverse_walk_frame (ls : list loc) :
  forall (nO : option Z) (s : state W),
    same_but_dims ls s (fst (for_in ls infer_step nO s)).
Proof.
  induction ls as [|layer rest IH]; intros nO s.
  - apply same_but_dims_refl.
  - rewrite for_in_cons.
    assert (Hstep : same_but_dims (layer :: rest) s
                      (fst (infer_step layer nO s))).
    { eapply same_but_dims_weaken; [|apply infer_step_frame].
      intros l Hl. apply list_elem_of_singleton in Hl as ->. left. }
    destruct (infer_step layer nO s) as [s1 [[[|] v]|e]];
      cbn [fst] in Hstep; try exact Hstep.
    eapply same_but_dims_trans; [exact Hstep|].
    eapply same_but_dims_weaken; [|apply IH].
    intros l Hl. now right.
Qed.

(** X6. The reverse walk of [init], whether it returns or raises, touches
    nothing but dimensions of the composite's sublayers: objects that are
    not sublayers stay as they are, a sublayer keeps its name, functions,
    parameters and sublayers, no object appears or disappears, and the
    rest of the store is left alone. *)
Theorem reverse_walk_changes_dims_only (s : state W) (model : loc)
    (m : Model) (nO : option Z) :
  heap s !! model = Some m ->
  let s' := fst (infer_widths model nO s) in
  world s' = world s
  /\ (forall l, l ∉ layers m -> heap s' !! l = heap s !! l)
  /\ (forall l mo, heap s !! l = Some mo ->
        exists d, heap s' !! l = Some (set_dims mo d))
  /\ (forall l, heap s !! l = None -> heap s' !! l = None).
Proof.
  intros Hm s'.
  assert (Hframe : same_but_dims (layers m) s s').
  { subst s'. unfold infer_widths. at_object Hm.
    eapply same_but_dims_weaken; [|apply reverse_walk_frame].
    intros l Hl. apply list_elem_of_In, in_rev. now apply list_elem_of_In. }
  destruct Hframe as [Hw Hh]. split; [exact Hw|]. split; [|split].
  - intros l Hnot. destruct (Hh l) as [Heq|[Hin _]]; [exact Heq|].
    contradiction.
  - intros l mo Hl. destruct (Hh l) as [Heq|(_ & mo' & d & Hl' & Hs')].
    + exists (dims mo). rewrite Heq, Hl. now rewrite set_dims_same.
    + exists d. rewrite Hs'. congruence.
  - intros l Hl. destruct (Hh l) as [Heq|(_ & mo' & d & Hl' & _)];
      congruence.
Qed.

(** ** Initialisation without sample data *)

Lemma initialize_loop (ls : list loc) :
  forall s : state W,
    for_in ls
      (fun layer (_ : unit) =>
         initialize_layer layer None None ;; ret (Continue, tt)) tt s =
    initialize_all ls s.
Proof.
  induction ls as [|layer rest IH]; intros s; [reflexivity|].
  rewrite for_in_cons. cbn [initialize_all]. unfold bind, ret.
  destruct (initialize_layer layer None None s) as [s1 [[]|e]];
    [apply IH|reflexivity].
Qed.

(** One of the two copies at the end of [init]. *)
Lemma copy_dim_runs (s : state W) (src dst : loc) (msrc mdst : Model)
    (k : string) (d : gmap string (option Z)) :
  heap s !! src = Some msrc ->
  heap s !! dst = Some mdst ->
  copy_dim k (dims msrc) (dims mdst) = Ok d ->
  (let* h := model_has_dim src k in
   if truthy h
   then let* v := model_get_dim src k in model_set_dim dst k v
   else ret tt) s =
  (mkState (<[dst:=set_dims mdst d]> (heap s)) (world s), Ok tt).
Proof.
  intros Hsrc Hdst Hcopy. unfold copy_dim in Hcopy.
  unfold model_has_dim. rewrite bind_assoc. at_object Hsrc.
  rewrite bind_ret_l.
  destruct (truthy (has_dim (dims msrc) k)).
  - unfold model_get_dim. rewrite bind_assoc. at_object Hsrc.
    unfold bind at 1. unfold lift_result at 1.
    destruct (get_dim (dims msrc) k) as [v|e]; [|discriminate].
    unfold model_set_dim. at_object Hdst.
    unfold bind, lift_result. now rewrite Hcopy.
  - injection Hcopy as <-. unfold ret. now rewrite (store_same _ _ _ Hdst).
Qed.

Lemma copy_dim_then {A} (s : state W) (src dst : loc) (msrc mdst : Model)
    (k : string) (d : gmap string (option Z)) (K : M (state W) A) :
  heap s !! src = Some msrc ->
  heap s !! dst = Some mdst ->
  copy_dim k (dims msrc) (dims mdst) = Ok d ->
  (let* h := model_has_dim src k in
   (if truthy h
    then let* v := model_get_dim src k in model_set_dim dst k v
    else ret tt) ;;
   K) s =
  K (mkState (<[dst:=set_dims mdst d]> (heap s)) (world s)).
Proof.
  intros Hsrc Hdst Hcopy.
  pose proof (copy_dim_runs _ _ _ _ _ _ _ Hsrc Hdst Hcopy) as Hrun.
  unfold bind in *.
  destruct (model_has_dim src k s) as [s0 [h|e]]; [|discriminate].
  now rewrite Hrun.
Qed.

(** X7. [init] without sample data, when the sublayers initialise: the
    composite's [nI] becomes the first sublayer's [nI] and its [nO] the
    last sublayer's [nO], each only if the sublayer has that dimension
    after its own initialisation; nothing else changes after the
    sublayers' initialisation. *)
Theorem init_without_data_copies_ends (s s1 : state W) (model : loc)
    (m m1 m0 mn : Model) (l0 : loc) (rest : list loc)
    (d1 d2 : gmap string (option Z)) :
  heap s !! model = Some m ->
  layers m <> [] ->
  initialize_all (layers m) s = (s1, Ok tt) ->
  heap s1 !! model = Some m1 ->
  layers m1 = l0 :: rest ->
  List.last rest l0 <> model ->
  heap s1 !! l0 = Some m0 ->
  heap s1 !! List.last rest l0 = Some mn ->
  copy_dim "nI" (dims m0) (dims m1) = Ok d1 ->
  copy_dim "nO" (dims mn) d1 = Ok d2 ->
  init model None None s =
    (mkState (<[model:=set_dims m1 d2]> (heap s1)) (world s1), Ok tt).
Proof.
  intros Hm Hne Hinit Hm1 Hls Hlast Hl0 Hln Hc1 Hc2.
  unfold init. at_object Hm.
  destruct (layers m) as [|l ls] eqn:Hlayers; [congruence|].
  unfold bind at 1. rewrite initialize_loop, Hinit.
  unfold propagate_ends.
  unfold first_layer at 1. rewrite bind_assoc. at_object Hm1. rewrite Hls.
  rewrite bind_ret_l.
  etransitivity; [eapply copy_dim_then; eassumption|].
  set (s2 := mkState _ _).
  assert (Hm2 : heap s2 !! model = Some (set_dims m1 d1))
    by apply lookup_insert_eq.
  assert (Hln2 : heap s2 !! List.last rest l0 = Some mn).
  { subst s2. cbn [heap]. now rewrite lookup_insert_ne. }
  unfold last_layer at 1. rewrite bind_assoc. at_object Hm2.
  cbn [layers set_dims]. rewrite Hls, bind_ret_l.
  rewrite (copy_dim_runs _ _ _ _ _ _ _ Hln2 Hm2 Hc2).
  subst s2. cbn [heap world set_dims name _func _init params layers].
  now rewrite insert_insert_eq.
Qed.

End ChainFurther.

(** ** The further chain properties on the sample layers *)

Section ChainFurtherOnSample.
Import Chain Sample.
#[local] Existing Instance chain_collaborators.

Lemma forward_stops_at_raise_witness :
  forward 4%nat 5 true interrupted = (interrupted, Raise (ExternalError 0)).
Proof.
  apply (forward_stops_at_raise interrupted interrupted interrupted 4%nat
           chain_a0b [1%nat] [2%nat] 0%nat 5 51 [digit_callback 1%nat] true
           (ExternalError 0)); reflexivity.
Defined.

Lemma backprop_stops_at_raise_witness :
  backprop [digit_callback 1%nat; failing_callback; digit_callback 2%nat]
    7 chained = (chained, Raise (ExternalError 1)).
Proof.
  apply (backprop_stops_at_raise chained chained chained
           [digit_callback 1%nat] [digit_callback 2%nat] failing_callback
           7 72 (ExternalError 1)); reflexivity.
Defined.

Lemma backprop_app_witness :
  backprop ([digit_callback 1%nat; digit_callback 2%nat]
              ++ [digit_callback 3%nat]) 7 chained =
  (let* dY := backprop [digit_callback 3%nat] 7 in
   backprop [digit_callback 1%nat; digit_callback 2%nat] dY) chained.
Proof.
  apply (backprop_app [digit_callback 1%nat; digit_callback 2%nat]
           [digit_callback 3%nat] 7 chained); discriminate.
Defined.

Lemma extended_chain_forward_witness :
  (let* c := chain [4%nat; 3%nat] in forward c 5 true) chained =
  (let* _ := chain [4%nat; 3%nat] in
   let* (Y, c1) := feed_in_order [1%nat; 2%nat] 5 true in
   let* (Z, c2) := feed_in_order [3%nat] Y true in
   ret (Z, backprop (c1 ++ c2))) chained.
Proof.
  apply (extended_chain_forward chained 4%nat chain_ab [3%nat] 5 true);
    [reflexivity|reflexivity|discriminate].
Defined.

Lemma chain_makes_new_composite_witness :
  chain [1%nat; 2%nat] three_layers = (chained, Ok 4%nat).
Proof.
  destruct (chain_makes_new_composite three_layers [1%nat; 2%nat]
              [plain "a" (<["nI":=Some 4]> (<["nO":=None]> ∅));
               plain "b" (<["nI":=None]> (<["nO":=None]> ∅))])
    as [_ Hchain].
  - repeat constructor.
  - intros m0 rest [= <- _]. discriminate.
  - reflexivity.
  - exact (eq_trans Hchain ltac:(vm_compute; reflexivity)).
Defined.

Lemma reverse_walk_changes_dims_only_witness :
  heap (fst (infer_widths 4%nat (Some 7) chained)) !! 3%nat =
    heap chained !! 3%nat
  /\ exists d,
       heap (fst (infer_widths 4%nat (Some 7) chained)) !! 2%nat =
       Some (set_dims (plain "b" (<["nI":=None]> (<["nO":=None]> ∅))) d).
Proof.
  destruct (reverse_walk_changes_dims_only chained 4%nat chain_ab (Some 7)
              ltac:(reflexivity)) as (_ & Hother & Hdims & _).
  split.
  - apply Hother. cbn. intros Hin.
    apply list_elem_of_In in Hin. cbn in Hin. intuition discriminate.
  - apply Hdims. reflexivity.
Defined.

Lemma init_without_data_copies_ends_witness :
  init 4%nat None None chained =
    (mkState
       (<[4%nat := set_dims chain_ab
                     (<["nI":=Some 4]> (<["nO":=None]> (<["nI":=None]> ∅)))]>
          (heap chained))
       tt,
     Ok tt).
Proof.
  apply (init_without_data_copies_ends chained chained 4%nat chain_ab chain_ab
           (plain "a" (<["nI":=Some 4]> (<["nO":=None]> ∅)))
           (plain "b" (<["nI":=None]> (<["nO":=None]> ∅)))
           1%nat [2%nat]
           (<["nI":=Some 4]> (<["nO":=None]> (<["nI":=None]> ∅))));
    try reflexivity; discriminate.
Defined.

End ChainFurtherOnSample.

(** * Further properties of [thinc/neural/_classes/layernorm.py] *)

Section LayerNormFurther.
Context {T W : Type} {np : LayerNorm.Numpy T}
  {co : LayerNorm.Collaborators T W}.
Import LayerNorm.

Lemma predict_unfold (X : T) (s : state T W) :
  predict X s =
  match child_predict X (world s) with
  | (w, Ok X1) =>
      (mkState (mem s) w (log s),
       Ok (add (mul (Xhat_of X1) (G (mem s))) (b (mem s))))
  | (w, Raise e) => (mkState (mem s) w (log s), Raise e)
  end.
Proof.
  unfold predict, bind, lift_world.
  destruct (child_predict X (world s)) as [w [X1|e]]; reflexivity.
Qed.

(** X8. The forward passes only read the layer's memory: after [predict] and
    after [begin_update], returned or raised, the scale, the bias and
    both gradient accumulators are what they were; [predict] calls
    neither the child's training update nor dropout. *)
Theorem forward_passes_keep_memory (self_id : Z) (X drop : T)
    (s : state T W) :
  mem (fst (begin_update self_id X drop s)) = mem s
  /\ mem (fst (predict X s)) = mem s
  /\ log (fst (predict X s)) = log s.
Proof.
  split; [|split].
  - rewrite begin_update_unfold.
    destruct (child_begin_update X (lit 0) (world s)) as [w1 [[X1 bpc]|e]];
      [|reflexivity].
    cbn zeta.
    destruct (ops_dropout _ (effective_rate drop) w1) as [w2 [[y' wrap]|e]];
      [|reflexivity].
    destruct (bool_decide (dtype_of y' = Float32)); reflexivity.
  - rewrite predict_unfold.
    destruct (child_predict X (world s)) as [w [X1|e]]; reflexivity.
  - rewrite predict_unfold.
    destruct (child_predict X (world s)) as [w [X1|e]]; reflexivity.
Qed.

(** X9. Prediction and training normalise and rescale alike: when the child
    predicts the array that its training update returns, the value of
    [predict] is the very array that [begin_update] hands to dropout. *)
Theorem predict_is_training_before_dropout (self_id : Z) (X drop : T)
    (s : state T W) (w w1 : W) (X1 : T) (bpc : child_backprop T W) :
  child_predict X (world s) = (w, Ok X1) ->
  child_begin_update X (lit 0) (world s) = (w1, Ok (X1, bpc)) ->
  exists y,
    snd (predict X s) = Ok y
    /\ y = add (mul (mul (sub X1 (mean_axis1 X1))
                       (pow (add (var_axis1 X1) (lit 1e-08)) (lit (-0.5))))
                  (G (mem s)))
             (b (mem s))
    /\ log (fst (begin_update self_id X drop s)) =
         log s ++ [EvChildBeginUpdate X (lit 0);
                   EvDropout y (effective_rate drop)].
Proof.
  intros Hpredict Htrain. eexists. split; [|split].
  - rewrite predict_unfold, Hpredict. reflexivity.
  - reflexivity.
  - rewrite begin_update_unfold, Htrain. cbn zeta.
    destruct (ops_dropout _ (effective_rate drop) w1) as [w2 [[y' wrap]|e]];
      [|reflexivity].
    destruct (bool_decide (dtype_of y' = Float32)); reflexivity.
Qed.

(** X10. How the width of [G] and [b] is resolved after [__init__]: an [nO]
    keyword wins, whatever its value, [None] included; without it the
    child's [nO] is taken if it is a nonzero number; otherwise resolving
    the width raises. [nr_upd] always starts at zero. *)
Theorem width_resolution (kwargs : gmap string (option Z)) :
  G_shape (__init__ kwargs) =
    match kwargs !! "nO" with
    | Some v => Ok [v]
    | None =>
        match child_nO with
        | Some (Some n) =>
            if n =? 0 then Raise (AttributeError "nO") else Ok [Some n]
        | _ => Raise (AttributeError "nO")
        end
    end
  /\ b_shape (__init__ kwargs) = G_shape (__init__ kwargs)
  /\ nr_upd (__init__ kwargs) = Some 0.
Proof.
  split; [|split; reflexivity].
  unfold G_shape, __init__. cbn [nO].
  destruct (kwargs !! "nO") as [v|]; [reflexivity|].
  destruct child_nO as [[n|]|]; cbn; [|reflexivity|reflexivity].
  now destruct (n =? 0).
Qed.

(** X11. Gradients accumulate: two affine backward steps without an optimizer
    add both batch sums to [d_b] and to [d_G], leave the scale and the
    bias alone, and each passes on its gradient times the same scale. *)
Theorem gradients_accumulate (self_id : Z) (Xhat1 dy1 Xhat2 dy2 : T)
    (s : state T W) :
  (let* g1 := scale_shift_finish_update self_id Xhat1 dy1 None in
   let* g2 := scale_shift_finish_update self_id Xhat2 dy2 None in
   ret (g1, g2)) s =
  (mkState
     (mkMemory (G (mem s)) (b (mem s))
        (add (add (d_G (mem s)) (sum_axis0 (mul dy1 Xhat1)))
             (sum_axis0 (mul dy2 Xhat2)))
        (add (add (d_b (mem s)) (sum_axis0 dy1)) (sum_axis0 dy2)))
     (world s) (log s),
   Ok (mul dy1 (G (mem s)), mul dy2 (G (mem s)))).
Proof.
  unfold bind at 1. rewrite scale_shift_finish_update_spec.
  cbn [optimizer_update optimizer_events].
  unfold bind at 1. rewrite scale_shift_finish_update_spec.
  cbn [optimizer_update optimizer_events].
  unfold accumulated, ret. cbn [mem world log G b d_G d_b].
  now rewrite !app_nil_r.
Qed.

(** X12. An optimizer that raises ends the backward pass: it was called on the
    buffers that already hold this batch's sums, the error comes out, and
    the child's backward closure is not called. *)
Theorem optimizer_failure_stops_backward (self_id : Z)
    (X N mu var Xhat dy : T) (bpc : child_backprop T W)
    (sgd : optimizer T W) (st : state T W) (m2 : Memory T) (w2 : W)
    (e : exn) :
  sgd (accumulated (mem st) dy Xhat) self_id (world st) = ((m2, w2), Raise e) ->
  finish_update X N mu var (scale_shift_finish_update self_id Xhat) bpc
    dy (Some sgd) st =
  (mkState m2 w2 (log st ++ [EvSgd self_id]), Raise e).
Proof.
  intros Hsgd. rewrite finish_update_spec. cbn [optimizer_update].
  now rewrite Hsgd.
Qed.

End LayerNormFurther.

(** ** The further layer-normalisation properties on the symbolic backend *)

Section LayerNormFurtherOnSample.
Import LayerNorm Sample.
#[local] Existing Instance symbolic_numpy.

Lemma predict_is_training_before_dropout_witness :
  snd (predict (Collaborators0 := consistent_collaborators) (Sym "X")
         (symbolic_state false)) = Ok rescaled
  /\ log (fst (begin_update (Collaborators0 := consistent_collaborators) 7 (Sym "X")
                 (Num 0.25) (symbolic_state false))) =
       [EvChildBeginUpdate (Sym "X") (Num 0); EvDropout rescaled quarter].
Proof.
  destruct (predict_is_training_before_dropout (np := symbolic_numpy)
              (co := consistent_collaborators) 7 (Sym "X") (Num 0.25)
              (symbolic_state false) false false child_X
              symbolic_child_backprop ltac:(reflexivity) ltac:(reflexivity))
    as (y & Hpredict & -> & Hlog).
  split; [exact Hpredict|exact Hlog].
Defined.

Lemma optimizer_failure_stops_backward_witness :
  finish_update child_X (N_of child_X) (mu_of child_X) (var_of child_X)
    (scale_shift_finish_update 7 (Xhat_of child_X)) symbolic_child_backprop
    (Sym "dy") (Some failing_sgd) (symbolic_state false) =
  (mkState (accumulated symbolic_memory (Sym "dy") (Xhat_of child_X)) false
     [EvSgd 7],
   Raise (ExternalError 2)).
Proof.
  apply (optimizer_failure_stops_backward (np := symbolic_numpy) 7 child_X
           (N_of child_X) (mu_of child_X) (var_of child_X) (Xhat_of child_X)
           (Sym "dy") symbolic_child_backprop failing_sgd
           (symbolic_state false)).
  reflexivity.
Defined.

(** The child of the second sample has width 3, and an explicit [None]
    still wins over it. *)
Example explicit_none_wins :
  G_shape (__init__ (Collaborators0 := consistent_collaborators) (<["nO":=None]> ∅)) =
    Ok [None]
  /\ G_shape (__init__ (Collaborators0 := consistent_collaborators) ∅) = Ok [Some 3].
Proof. split; vm_compute; reflexivity. Qed.

End LayerNormFurtherOnSample.

(** * Properties of [thinc/shims/tensorflow.py] *)

Section TensorFlowShimTheorems.
Context {A : Type} {be : TensorFlowShim.Backend A}.
Import TensorFlowShim.

(** X13. Which optimizer is made: none, with [NotImplementedError], exactly
    when [b1] is zero and [b2] is not; plain SGD with momentum [b1]
    exactly when [b2] is zero, whatever [b1] is; Adam exactly when
    neither is zero. The learning rate is always [alpha]. *)
Theorem create_optimizer_cases (sgd : Optimizer) :
  (_create_optimizer sgd = None <->
     eq_zero (b1 sgd) = true /\ eq_zero (b2 sgd) = false)
  /\ (_create_optimizer sgd = Some (SGD (alpha sgd) (b1 sgd)) <->
        eq_zero (b2 sgd) = true)
  /\ (_create_optimizer sgd = Some (Adam (alpha sgd) (b1 sgd) (b2 sgd)) <->
        eq_zero (b1 sgd) = false /\ eq_zero (b2 sgd) = false).
Proof.
  unfold _create_optimizer, ne_zero, eq_zero.
  destruct (PrimFloat.eqb (b1 sgd) 0), (PrimFloat.eqb (b2 sgd) 0); cbn;
    repeat split; intros; try discriminate; try tauto;
    repeat match goal with H : _ /\ _ |- _ => destruct H end;
    try discriminate.
Qed.

(** ** The state dict *)

Lemma create_state_dict_flat (layers : list (list (variable A))) :
  _create_state_dict layers = foldl put ∅ (concat layers).
Proof.
  unfold _create_state_dict. generalize (∅ : gmap string A).
  induction layers as [|layer rest IH]; intros sd; [reflexivity|].
  cbn [foldl concat]. rewrite foldl_app. apply IH.
Qed.

Lemma put_all_other (ws : list (variable A)) (k : string) :
  forall sd : gmap string A,
    k ∉ map name ws -> foldl put sd ws !! k = sd !! k.
Proof.
  induction ws as [|w rest IH]; intros sd Hk; [reflexivity|].
  cbn [foldl]. cbn [map] in Hk. apply not_elem_of_cons in Hk as [Hne Hk].
  rewrite IH by exact Hk. unfold put. now rewrite lookup_insert_ne.
Qed.

Lemma put_all_lookup (ws : list (variable A)) (w : variable A) :
  forall sd : gmap string A,
    NoDup (map name ws) -> w ∈ ws ->
    foldl put sd ws !! name w = Some (numpy w).
Proof.
  induction ws as [|w0 rest IH]; intros sd Hnd Hin.
  - now apply elem_of_nil in Hin.
  - cbn [map] in Hnd. apply NoDup_cons in Hnd as [Hfresh Hnd].
    cbn [foldl]. apply elem_of_cons in Hin as [->|Hin].
    + rewrite put_all_other by exact Hfresh. apply lookup_insert_eq.
    + now apply IH.
Qed.

Lemma current_layer_weights_by_name (sd : gmap string A)
    (layer' layer : list (variable A)) :
  map name layer' = map name layer ->
  (forall w, w ∈ layer -> sd !! name w = Some (numpy w)) ->
  current_layer_weights sd layer' = Ok (map numpy layer).
Proof.
  revert layer. induction layer' as [|w' rest' IH]; intros [|w rest] Hn Hsd;
    try discriminate; [reflexivity|].
  injection Hn as Hw Hrest. cbn [current_layer_weights map].
  rewrite Hw, (Hsd w) by left.
  rewrite (IH rest Hrest); [reflexivity|].
  intros v Hv. apply Hsd. now right.
Qed.

Lemma load_layers_own_values (sd : gmap string A)
    (layers : list (list (variable A))) :
  (forall w, w ∈ concat layers -> sd !! name w = Some (numpy w)) ->
  (forall layer, layer ∈ layers ->
     set_weights layer (map numpy layer) = Ok layer) ->
  load_layers sd layers = (layers, Ok tt).
Proof.
  induction layers as [|layer rest IH]; intros Hsd Hset; [reflexivity|].
  cbn [load_layers].
  rewrite (current_layer_weights_by_name sd layer layer eq_refl).
  2:{ intros w Hw. apply Hsd. cbn [concat]. apply elem_of_app. now left. }
  rewrite Hset by left.
  rewrite IH; [reflexivity| |].
  - intros w Hw. apply Hsd. cbn [concat]. apply elem_of_app. now right.
  - intros l Hl. apply Hset. now right.
Qed.

(** X14. The state dict gives back every weight under its name, and loading
    the model's own state dict changes nothing, provided the weight
    names of the model are distinct (and setting a layer's weights to
    their current values changes nothing). *)
Theorem state_dict_round_trip (layers : list (list (variable A))) :
  NoDup (map name (concat layers)) ->
  (forall layer, layer ∈ layers ->
     set_weights layer (map numpy layer) = Ok layer) ->
  (forall w, w ∈ concat layers ->
     _create_state_dict layers !! name w = Some (numpy w))
  /\ _load_weights_from_state_dict None layers = (layers, Ok tt).
Proof.
  intros Hnd Hset.
  assert (Hlookup : forall w, w ∈ concat layers ->
            _create_state_dict layers !! name w = Some (numpy w)).
  { intros w Hw. rewrite create_state_dict_flat. now apply put_all_lookup. }
  split; [exact Hlookup|].
  unfold _load_weights_from_state_dict. now apply load_layers_own_values.
Qed.

Lemma current_layer_weights_missing (sd : gmap string A)
    (found : list (variable A)) (w : variable A) (rest : list (variable A)) :
  (forall v, v ∈ found -> is_Some (sd !! name v)) ->
  sd !! name w = None ->
  current_layer_weights sd (found ++ w :: rest) = Raise (KeyError (name w)).
Proof.
  induction found as [|v vs IH]; intros Hfound Hw.
  - cbn. now rewrite Hw.
  - cbn [app current_layer_weights].
    destruct (Hfound v) as [x Hx]; [left|]. rewrite Hx.
    rewrite IH; [reflexivity| |exact Hw].
    intros u Hu. apply Hfound. now right.
Qed.

Lemma load_layers_app (sd : gmap string A)
    (before before' rest : list (list (variable A))) :
  load_layers sd before = (before', Ok tt) ->
  load_layers sd (before ++ rest) =
  (let (rest', r) := load_layers sd rest in (before' ++ rest', r)).
Proof.
  revert before'. induction before as [|layer ls IH]; intros before' Hload.
  - injection Hload as <-. cbn [app]. now destruct (load_layers sd rest).
  - cbn [app load_layers] in *.
    destruct (current_layer_weights sd layer) as [vs|e]; [|discriminate].
    destruct (set_weights layer vs) as [layer'|e]; [|discriminate].
    destruct (load_layers sd ls) as [ls' [[]|e]] eqn:Hls; [|discriminate].
    injection Hload as <-. rewrite (IH ls' eq_refl).
    now destruct (load_layers sd rest).
Qed.

(** X15. A state dict that lacks the name of a weight: loading raises
    [KeyError] with the first such name; the layers before that weight's
    layer have been set, that layer and the later ones are untouched. *)
Theorem load_raises_on_missing_name (sd : gmap string A)
    (before before' after : list (list (variable A)))
    (found : list (variable A)) (w : variable A) (rest : list (variable A)) :
  load_layers sd before = (before', Ok tt) ->
  (forall v, v ∈ found -> is_Some (sd !! name v)) ->
  sd !! name w = None ->
  _load_weights_from_state_dict (Some sd)
    (before ++ (found ++ w :: rest) :: after) =
  (before' ++ (found ++ w :: rest) :: after, Raise (KeyError (name w))).
Proof.
  intros Hbefore Hfound Hw. unfold _load_weights_from_state_dict.
  rewrite (load_layers_app _ _ _ _ Hbefore). cbn [load_layers].
  now rewrite (current_layer_weights_missing _ _ _ _ Hfound Hw).
Qed.

Lemma current_layer_weights_found (sd : gmap string A)
    (layer : list (variable A)) :
  forall (vs : list A) (layer' : list (variable A)),
    current_layer_weights sd layer = Ok vs ->
    map name layer' = map name layer ->
    map numpy layer' = vs ->
    Forall (fun w' => sd !! name w' = Some (numpy w')) layer'.
Proof.
  induction layer as [|w rest IH]; intros vs layer' Hcur Hn Hv.
  - destruct layer'; [constructor|discriminate].
  - destruct layer' as [|w' rest']; [discriminate|].
    cbn [current_layer_weights] in Hcur.
    destruct (sd !! name w) as [v|] eqn:Hw; [|discriminate].
    destruct (current_layer_weights sd rest) as [vs'|e] eqn:Hrest;
      [|discriminate].
    injection Hcur as <-. injection Hn as Hn0 Hn. injection Hv as Hv0 Hv.
    constructor; [congruence|]. now apply (IH vs').
Qed.

(** X16. After a load that returns, the model has the layers and weight names
    it had, and every weight holds the value that the state dict has
    under its name, given that Keras' [set_weights] keeps the names and
    stores the values it is handed. *)
Theorem load_sets_values (sd : gmap string A)
    (layers loaded : list (list (variable A))) :
  (forall layer vs layer',
     set_weights layer vs = Ok layer' ->
     map name layer' = map name layer /\ map numpy layer' = vs) ->
  _load_weights_from_state_dict (Some sd) layers = (loaded, Ok tt) ->
  map (map name) loaded = map (map name) layers
  /\ forall layer' w',
       layer' ∈ loaded -> w' ∈ layer' -> sd !! name w' = Some (numpy w').
Proof.
  intros Hkeeps. unfold _load_weights_from_state_dict.
  revert loaded. induction layers as [|layer rest IH]; intros loaded Hload.
  - injection Hload as <-. split; [reflexivity|].
    intros layer' w' Hin. now apply elem_of_nil in Hin.
  - cbn [load_layers] in Hload.
    destruct (current_layer_weights sd layer) as [vs|e] eqn:Hcur;
      [|discriminate].
    destruct (set_weights layer vs) as [layer1|e] eqn:Hset; [|discriminate].
    destruct (load_layers sd rest) as [rest' [[]|e]]; [|discriminate].
    injection Hload as <-.
    destruct (Hkeeps _ _ _ Hset) as [Hn Hv].
    destruct (IH rest' eq_refl) as [Hnames Hvalues].
    split; [cbn [map]; congruence|].
    intros layer' w' Hin Hw'. apply elem_of_cons in Hin as [->|Hin].
    + pose proof (current_layer_weights_found _ _ _ _ Hcur Hn Hv) as Hall.
      rewrite Forall_forall in Hall. now apply Hall.
    + now apply (Hvalues layer').
Qed.

(** ** [use_params] *)

Lemma collect_params_no_match (prefix : string) (params : list (key * A)) :
  Forall (fun kv => key_matches prefix kv.1 = false) params ->
  forall sd, collect_params prefix params sd = Ok sd.
Proof.
  induction 1 as [|[k v] rest Hk _ IH]; intros sd; [reflexivity|].
  cbn [collect_params]. destruct k as [k|tag]; [|apply IH].
  cbn in Hk. rewrite Hk. apply IH.
Qed.

(** X17. When no key of [params] is a string that starts with this shim's
    prefix, the block is the body alone: no weight is read, replaced or
    restored. *)
Theorem use_params_without_matching_keys (self_id : Z)
    (params : list (key * A)) (body : M (list (list (variable A))) unit)
    (layers : list (list (variable A))) :
  Forall (fun kv => key_matches (key_prefix self_id) kv.1 = false) params ->
  use_params self_id params body layers = body layers.
Proof.
  intros Hno. unfold use_params, bind, lift_result.
  rewrite (collect_params_no_match _ _ Hno).
  now rewrite map_size_empty.
Qed.

(** X18. When the body raises, the weights are not restored: the error comes
    out with the model as the body left it. *)
Theorem use_params_does_not_restore_on_raise (self_id : Z)
    (params : list (key * A)) (body : M (list (list (variable A))) unit)
    (layers loaded left : list (list (variable A)))
    (sd : gmap string A) (e : exn) :
  collect_params (key_prefix self_id) params ∅ = Ok sd ->
  size sd <> 0%nat ->
  load_layers sd layers = (loaded, Ok tt) ->
  body loaded = (left, Raise e) ->
  use_params self_id params body layers = (left, Raise e).
Proof.
  intros Hsd Hsize Hload Hbody. unfold use_params, bind, lift_result.
  rewrite Hsd, bool_decide_false by exact Hsize.
  unfold _load_weights_from_state_dict. now rewrite Hload, Hbody.
Qed.

Lemma load_layers_pairs (sd : gmap string A)
    (layers : list (list (variable A))) :
  forall loaded,
    load_layers sd layers = (loaded, Ok tt) ->
    Forall2 (fun layer layer' => exists vs, set_weights layer vs = Ok layer')
      layers loaded.
Proof.
  induction layers as [|layer rest IH]; intros loaded Hload.
  - injection Hload as <-. constructor.
  - cbn [load_layers] in Hload.
    destruct (current_layer_weights sd layer) as [vs|e]; [|discriminate].
    destruct (set_weights layer vs) as [layer'|e] eqn:Hset; [|discriminate].
    destruct (load_layers sd rest) as [rest' [[]|e]]; [|discriminate].
    injection Hload as <-. constructor; [eauto|now apply IH].
Qed.

Lemma same_names_and_values (l1 l2 : list (variable A)) :
  map name l1 = map name l2 -> map numpy l1 = map numpy l2 -> l1 = l2.
Proof.
  revert l2. induction l1 as [|[n v] r IH]; intros [|[n' v'] r'] Hn Hv;
    try discriminate; [reflexivity|].
  cbn in Hn, Hv. injection Hn as -> Hn. injection Hv as -> Hv.
  f_equal. now apply IH.
Qed.

(** X19. When the body returns and leaves the replaced weights as they are,
    the block ends with the model as it was before: the weights are
    replaced for the body only. This needs distinct weight names, and of
    Keras that [set_weights] keeps the names, stores the values it is
    given, and accepts again the values a layer had before a successful
    [set_weights]. *)
Theorem use_params_restores (self_id : Z) (params : list (key * A))
    (body : M (list (list (variable A))) unit)
    (layers loaded : list (list (variable A))) (sd : gmap string A) :
  (forall layer vs layer',
     set_weights layer vs = Ok layer' ->
     map name layer' = map name layer /\ map numpy layer' = vs) ->
  (forall layer vs layer',
     set_weights layer vs = Ok layer' ->
     exists layer'', set_weights layer' (map numpy layer) = Ok layer'') ->
  NoDup (map name (concat layers)) ->
  collect_params (key_prefix self_id) params ∅ = Ok sd ->
  size sd <> 0%nat ->
  load_layers sd layers = (loaded, Ok tt) ->
  body loaded = (loaded, Ok tt) ->
  use_params self_id params body layers = (layers, Ok tt).
Proof.
  intros Hkeeps Hundo Hnd Hsd Hsize Hload Hbody.
  unfold use_params, bind, lift_result.
  rewrite Hsd, bool_decide_false by exact Hsize.
  unfold _load_weights_from_state_dict. rewrite Hload, Hbody.
  assert (Hbackup : forall w, w ∈ concat layers ->
            _create_state_dict layers !! name w = Some (numpy w)).
  { intros w Hw. rewrite create_state_dict_flat. now apply put_all_lookup. }
  clear Hsd Hsize Hbody Hnd.
  apply load_layers_pairs in Hload.
  revert Hbackup. generalize (_create_state_dict layers). intros backup.
  induction Hload as [|layer layer' rest rest' [vs Hset] _ IH];
    intros Hbackup; [reflexivity|].
  destruct (Hkeeps _ _ _ Hset) as [Hnames _].
  destruct (Hundo _ _ _ Hset) as [layer'' Hback].
  destruct (Hkeeps _ _ _ Hback) as [Hnames' Hvalues'].
  assert (layer'' = layer) as ->.
  { apply same_names_and_values; congruence. }
  cbn [load_layers].
  rewrite (current_layer_weights_by_name backup layer' layer Hnames).
  2:{ intros w Hw. apply Hbackup. cbn [concat]. apply elem_of_app. now left. }
  rewrite Hback, IH; [reflexivity|].
  intros w Hw. apply Hbackup. cbn [concat]. apply elem_of_app. now right.
Qed.

(** ** Strings: the prefix and its removal *)

Lemma prefix_app (a b : string) : String.prefix a (a +:+ b) = true.
Proof.
  induction a as [|c a IH]; [now destruct b|].
  change (String.prefix (String c a) (String c (a +:+ b)) = true).
  cbn [String.prefix]. now destruct (Ascii.ascii_dec c c).
Qed.

Lemma string_app_inj (p a b : string) : p +:+ a = p +:+ b -> a = b.
Proof.
  induction p as [|c p IH]; [auto|].
  change (String c (p +:+ a) = String c (p +:+ b) -> a = b).
  intros [= Heq]. auto.
Qed.

Lemma remove_all_skip (old t rest : string) :
  remove_all old (String.length t) (t +:+ rest) = remove_all old 0 rest.
Proof.
  induction t as [|c t IH]; [reflexivity|].
  change (remove_all old (S (String.length t)) (String c (t +:+ rest)) =
          remove_all old 0 rest).
  exact IH.
Qed.

Lemma remove_all_absent (old s : string) :
  occurs old s = false -> remove_all old 0 s = s.
Proof.
  induction s as [|c s IH]; intros Hocc; [reflexivity|].
  cbn [occurs] in Hocc. apply orb_false_iff in Hocc as [Hhere Hlater].
  cbn [remove_all]. rewrite Hhere. now rewrite IH.
Qed.

(** Removing the prefix from a key made of the prefix and a name that
    does not contain it gives the name back. *)
Lemma replace_own_prefix (p s : string) :
  p <> EmptyString ->
  occurs p s = false ->
  str_replace_with_empty p (p +:+ s) = s.
Proof.
  intros Hp Hs. destruct p as [|c p]; [congruence|].
  unfold str_replace_with_empty.
  change (String c p +:+ s) with (String c (p +:+ s)).
  cbn [remove_all].
  change (String c (p +:+ s)) with (String c p +:+ s).
  rewrite prefix_app.
  replace (String.length (String c p) - 1)%nat with (String.length p)
    by (cbn [String.length]; lia).
  rewrite remove_all_skip. now apply remove_all_absent.
Qed.

Lemma key_prefix_nonempty (self_id : Z) : key_prefix self_id <> EmptyString.
Proof. unfold key_prefix. discriminate. Qed.

(** ** [_update_tensorflow_averages] *)

Lemma dict_get_no_match (prefix k : string) (d : list (key * A)) :
  Forall (fun kv => key_matches prefix kv.1 = false) d ->
  String.prefix prefix k = true ->
  dict_get (StrKey k) d = None.
Proof.
  induction 1 as [|[k' v] rest Hk _ IH]; intros Hpre; [reflexivity|].
  cbn [dict_get]. destruct (decide (k' = StrKey k)) as [->|_]; [|now apply IH].
  cbn in Hk. congruence.
Qed.

Lemma dict_set_new (k : key) (v : A) (d : list (key * A)) :
  dict_get k d = None -> dict_set k v d = d ++ [(k, v)].
Proof.
  induction d as [|[k' v'] rest IH]; intros Hget; [reflexivity|].
  cbn [dict_get dict_set] in *.
  destruct (decide (k' = k)); [discriminate|].
  cbn [app]. now rewrite IH.
Qed.

Lemma dict_get_app_other (k k' : key) (v : A) (d : list (key * A)) :
  k' <> k -> dict_get k (d ++ [(k', v)]) = dict_get k d.
Proof.
  intros Hne. induction d as [|[k0 v0] rest IH].
  - cbn. now destruct (decide (k' = k)).
  - cbn [app dict_get]. now destruct (decide (k0 = k)).
Qed.

(** The loop of lines 156-164 over weights none of which has an average
    yet. *)
Lemma averages_loop_first (self_id init_steps n0 : Z)
    (ws : list (variable A)) :
  nr_update_missing = Ok n0 ->
  NoDup (map name ws) ->
  forall (d : list (key * A)) (nr : gmap string Z),
    (forall w, w ∈ ws -> dict_get (StrKey (averages_key self_id w)) d = None) ->
    for_in ws
      (fun layer (_ : unit) =>
         let key := averages_key self_id layer in
         (let* n := nr_update_get key in nr_update_set key (n + 1)) ;;
         let xp_param := tensorflow2xp layer in
         let* d := averages_get in
         match dict_get (StrKey key) d with
         | Some average =>
             let* n := nr_update_get key in
             averages_set
               (dict_set (StrKey key) (update_averages average xp_param n) d) ;;
             ret (Continue, tt)
         | None =>
             averages_set (dict_set (StrKey key) xp_param d) ;;
             nr_update_set key init_steps ;;
             ret (Continue, tt)
         end)
      tt (mkSgd (Some d) nr) =
    (mkSgd
       (Some (d ++ map (fun w => (StrKey (averages_key self_id w),
                                  tensorflow2xp w)) ws))
       (foldl (fun nr w => <[averages_key self_id w := init_steps]> nr) nr ws),
     Ok tt).
Proof.
  intros Hdefault. induction ws as [|w rest IH]; intros Hnd d nr Hnew.
  - cbn. unfold ret. now rewrite app_nil_r.
  - cbn [map] in Hnd. apply NoDup_cons in Hnd as [Hfresh Hnd].
    rewrite for_in_cons. cbn zeta.
    assert (Hcount : exists n,
              nr_update_get (averages_key self_id w) (mkSgd (Some d) nr) =
              (mkSgd (Some d) nr, Ok n)).
    { unfold nr_update_get. cbn [nr_update].
      destruct (nr !! averages_key self_id w) as [n|]; [eauto|].
      rewrite Hdefault. eauto. }
    destruct Hcount as [n Hcount].
    unfold bind at 1. unfold bind at 1. rewrite Hcount.
    unfold nr_update_set at 1. cbn [averages nr_update].
    unfold bind at 1. unfold averages_get at 1. cbn [averages].
    rewrite (Hnew w) by left.
    unfold bind, averages_set, nr_update_set, ret. cbn [averages nr_update].
    rewrite insert_insert_eq, dict_set_new by (apply Hnew; left).
    rewrite IH; [|exact Hnd|].
    + cbn [map foldl]. now rewrite <- app_assoc.
    + intros w' Hw'. rewrite dict_get_app_other; [apply Hnew; now right|].
      intros [= Hkey]. apply string_app_inj in Hkey.
      apply Hfresh. rewrite Hkey. apply list_elem_of_fmap. eauto.
Qed.

Lemma update_averages_first_run (self_id init_steps n0 : Z)
    (model_layers : list (list (variable A))) (d : list (key * A))
    (nr : gmap string Z) :
  nr_update_missing = Ok n0 ->
  NoDup (map name (concat model_layers)) ->
  Forall (fun kv => key_matches (key_prefix self_id) kv.1 = false) d ->
  _update_tensorflow_averages self_id init_steps model_layers
    (mkSgd (Some d) nr) =
    (mkSgd
       (Some (d ++ map (fun w => (StrKey (averages_key self_id w),
                                  tensorflow2xp w)) (concat model_layers)))
       (foldl (fun nr w => <[averages_key self_id w := init_steps]> nr) nr
          (concat model_layers)),
     Ok tt).
Proof.
  intros Hdefault Hnd Hother.
  unfold _update_tensorflow_averages. cbn [averages]. unfold bind at 1.
  rewrite (averages_loop_first _ _ _ _ Hdefault Hnd); [reflexivity|].
  intros w _. eapply dict_get_no_match; [exact Hother|].
  apply prefix_app.
Qed.

(** X20. The first update of the averages for a model: for every weight, in
    the order of the model, a copy of its value is stored at the end of
    [sgd.averages] under the key [tensorflow_<id>_<weight name>], and its
    update count starts at [init_steps]; the entries already there stay.
    This holds when [nr_update] supplies a default count, the weight
    names are distinct, and no key of this shim is in [averages] yet.
    With [averages] missing or [None] nothing is done. *)
Theorem averages_first_update (self_id init_steps n0 : Z)
    (model_layers : list (list (variable A))) (d : list (key * A))
    (nr : gmap string Z) :
  nr_update_missing = Ok n0 ->
  NoDup (map name (concat model_layers)) ->
  Forall (fun kv => key_matches (key_prefix self_id) kv.1 = false) d ->
  _update_tensorflow_averages self_id init_steps model_layers
    (mkSgd (Some d) nr) =
    (mkSgd
       (Some (d ++ map (fun w => (StrKey (averages_key self_id w),
                                  tensorflow2xp w)) (concat model_layers)))
       (foldl (fun nr w => <[averages_key self_id w := init_steps]> nr) nr
          (concat model_layers)),
     Ok tt)
  /\ _update_tensorflow_averages self_id init_steps model_layers
       (mkSgd None nr) = (mkSgd None nr, Ok tt).
Proof.
  intros Hdefault Hnd Hother. split; [|reflexivity].
  now apply (update_averages_first_run _ _ n0).
Qed.

Lemma collect_params_app_no_match (prefix : string)
    (d rest : list (key * A)) :
  Forall (fun kv => key_matches prefix kv.1 = false) d ->
  forall sd,
    collect_params prefix (d ++ rest) sd = collect_params prefix rest sd.
Proof.
  induction 1 as [|[k v] d' Hk _ IH]; intros sd; [reflexivity|].
  cbn [app collect_params]. destruct k as [k|tag]; [|apply IH].
  cbn in Hk. rewrite Hk. apply IH.
Qed.

Lemma averages_key_has_prefix (self_id : Z) (w : variable A) :
  String.prefix (key_prefix self_id) (averages_key self_id w) = true.
Proof. apply prefix_app. Qed.

Lemma averages_key_strips (self_id : Z) (w : variable A) :
  occurs (key_prefix self_id) (name w) = false ->
  str_replace_with_empty (key_prefix self_id) (averages_key self_id w) =
  name w.
Proof. apply replace_own_prefix, key_prefix_nonempty. Qed.

Lemma collect_params_written (self_id : Z) (ws : list (variable A)) :
  (forall w, w ∈ ws -> checked_value (tensorflow2xp w) = Ok (numpy w)) ->
  (forall w, w ∈ ws -> occurs (key_prefix self_id) (name w) = false) ->
  forall sd,
    collect_params (key_prefix self_id)
      (map (fun w => (StrKey (averages_key self_id w), tensorflow2xp w)) ws)
      sd = Ok (foldl put sd ws).
Proof.
  induction ws as [|w rest IH]; intros Hval Hname sd; [reflexivity|].
  cbn [map collect_params foldl].
  rewrite averages_key_has_prefix, (Hval w) by left.
  rewrite averages_key_strips by (apply Hname; left).
  apply IH; intros w' Hw'; [apply Hval|apply Hname]; now right.
Qed.

(** X21. What the first update writes, [use_params] reads back: the state
    dict that [use_params] builds from [sgd.averages] right after the
    first update is the model's own state dict. This needs weight names
    that do not contain the shim's prefix, and values that pass the
    array test unchanged. *)
Theorem written_averages_are_read_back (self_id init_steps n0 : Z)
    (model_layers : list (list (variable A))) (d : list (key * A))
    (nr : gmap string Z) :
  nr_update_missing = Ok n0 ->
  NoDup (map name (concat model_layers)) ->
  Forall (fun kv => key_matches (key_prefix self_id) kv.1 = false) d ->
  (forall w, w ∈ concat model_layers ->
     checked_value (tensorflow2xp w) = Ok (numpy w)) ->
  (forall w, w ∈ concat model_layers ->
     occurs (key_prefix self_id) (name w) = false) ->
  exists d' nr',
    _update_tensorflow_averages self_id init_steps model_layers
      (mkSgd (Some d) nr) = (mkSgd (Some d') nr', Ok tt)
    /\ collect_params (key_prefix self_id) d' ∅ =
       Ok (_create_state_dict model_layers).
Proof.
  intros Hdefault Hnd Hother Hval Hname.
  eexists _, _.
  split; [exact (update_averages_first_run _ _ _ _ _ nr Hdefault Hnd Hother)|].
  rewrite (collect_params_app_no_match _ _ _ Hother).
  rewrite (collect_params_written _ _ Hval Hname).
  now rewrite create_state_dict_flat.
Qed.

End TensorFlowShimTheorems.

(** ** The shim properties on the Keras stand-in *)

Section TensorFlowShimOnSample.
Import TensorFlowShim Sample.
#[local] Existing Instance plain_backend.

Lemma plain_set_weights_keeps (layer : list (variable Z)) :
  forall (vs : list Z) (layer' : list (variable Z)),
    plain_set_weights layer vs = Ok layer' ->
    map name layer' = map name layer /\ map numpy layer' = vs.
Proof.
  unfold plain_set_weights. intros vs layer'.
  destruct (length layer =? length vs)%nat eqn:Hlen; [|discriminate].
  apply Nat.eqb_eq in Hlen. intros [= <-]. revert vs Hlen.
  induction layer as [|w rest IH]; intros [|v vs] Hlen; try discriminate;
    [now split|].
  injection Hlen as Hlen. destruct (IH vs Hlen) as [Hn Hv].
  cbn. now rewrite Hn, Hv.
Qed.

Lemma plain_set_weights_undo (layer : list (variable Z)) (vs : list Z)
    (layer' : list (variable Z)) :
  plain_set_weights layer vs = Ok layer' ->
  exists layer'', plain_set_weights layer' (map numpy layer) = Ok layer''.
Proof.
  intros Hset. destruct (plain_set_weights_keeps _ _ _ Hset) as [Hn _].
  unfold plain_set_weights.
  assert (length layer' = length (map numpy layer)) as ->.
  { rewrite length_map, <- (length_map name layer'), Hn. apply length_map. }
  rewrite Nat.eqb_refl. eauto.
Qed.

Lemma two_dense_names : NoDup (map name (concat two_dense)).
Proof.
  cbn. repeat (apply NoDup_cons; split;
               [intros Hin; apply list_elem_of_In in Hin; cbn in Hin;
                intuition discriminate|]).
  apply NoDup_nil. exact I.
Qed.

Lemma state_dict_round_trip_witness :
  _create_state_dict two_dense !! "dense/bias" = Some 2
  /\ _load_weights_from_state_dict None two_dense = (two_dense, Ok tt).
Proof.
  destruct (state_dict_round_trip (be := plain_backend) two_dense
              two_dense_names) as [Hlookup Hload].
  - intros layer Hin. apply list_elem_of_In in Hin. cbn in Hin.
    destruct Hin as [<-|[<-|[]]]; reflexivity.
  - split; [|exact Hload].
    apply (Hlookup (mkVariable "dense/bias" 2)). cbn. right. left.
Defined.

Lemma load_raises_on_missing_name_witness :
  _load_weights_from_state_dict (Some (<["dense/kernel":=10]> ∅)) two_dense =
    (two_dense, Raise (KeyError "dense/bias")).
Proof.
  apply (load_raises_on_missing_name (be := plain_backend)
           (<["dense/kernel":=10]> ∅) [] []
           [[mkVariable "out/kernel" 3]]
           [mkVariable "dense/kernel" 1] (mkVariable "dense/bias" 2) []).
  - reflexivity.
  - intros v Hv. apply list_elem_of_singleton in Hv as ->.
    exists 10. vm_compute. reflexivity.
  - vm_compute. reflexivity.
Defined.

Lemma load_sets_values_witness :
  map (map name) two_dense_averaged = map (map name) two_dense
  /\ forall layer' w',
       layer' ∈ two_dense_averaged -> w' ∈ layer' ->
       (<["dense/kernel":=10]>
          (<["dense/bias":=20]> (<["out/kernel":=30]> (∅ : gmap string Z))))
         !! name w' = Some (numpy w').
Proof.
  apply (load_sets_values (be := plain_backend)
           (<["dense/kernel":=10]>
              (<["dense/bias":=20]> (<["out/kernel":=30]> ∅)))
           two_dense two_dense_averaged).
  - exact plain_set_weights_keeps.
  - vm_compute. reflexivity.
Defined.

Lemma use_params_without_matching_keys_witness :
  use_params 7 [(OtherKey 0, 99); (StrKey "tensorflow_8_dense/kernel", 10)]
    (raise (ExternalError 4)) two_dense =
  (two_dense, Raise (ExternalError 4)).
Proof.
  apply (use_params_without_matching_keys (be := plain_backend) 7
           [(OtherKey 0, 99); (StrKey "tensorflow_8_dense/kernel", 10)]
           (raise (ExternalError 4)) two_dense).
  repeat constructor.
Defined.

Lemma use_params_does_not_restore_on_raise_witness :
  use_params 7 averages (raise (ExternalError 4)) two_dense =
    (two_dense_averaged, Raise (ExternalError 4)).
Proof.
  apply (use_params_does_not_restore_on_raise (be := plain_backend) 7
           averages (raise (ExternalError 4)) two_dense two_dense_averaged
           two_dense_averaged
           (<["dense/kernel":=10]>
              (<["dense/bias":=20]> (<["out/kernel":=30]> ∅)))
           (ExternalError 4)).
  - vm_compute. reflexivity.
  - vm_compute. discriminate.
  - vm_compute. reflexivity.
  - reflexivity.
Defined.

Lemma use_params_restores_witness :
  use_params 7 averages (ret tt) two_dense = (two_dense, Ok tt).
Proof.
  apply (use_params_restores (be := plain_backend) 7 averages (ret tt)
           two_dense two_dense_averaged
           (<["dense/kernel":=10]>
              (<["dense/bias":=20]> (<["out/kernel":=30]> ∅)))).
  - exact plain_set_weights_keeps.
  - exact plain_set_weights_undo.
  - exact two_dense_names.
  - vm_compute. reflexivity.
  - vm_compute. discriminate.
  - vm_compute. reflexivity.
  - reflexivity.
Defined.

Lemma averages_first_update_witness :
  TensorFlowShim.averages
    (fst (_update_tensorflow_averages 7 1 two_dense
            (mkSgd (Some [(OtherKey 0, 99)]) ∅))) =
    Some [(OtherKey 0, 99);
          (StrKey "tensorflow_7_dense/kernel", 1);
          (StrKey "tensorflow_7_dense/bias", 2);
          (StrKey "tensorflow_7_out/kernel", 3)]
  /\ nr_update
       (fst (_update_tensorflow_averages 7 1 two_dense
               (mkSgd (Some [(OtherKey 0, 99)]) ∅)))
       !! "tensorflow_7_dense/bias" = Some 1.
Proof.
  destruct (averages_first_update (be := plain_backend) 7 1 0 two_dense
              [(OtherKey 0, 99)] ∅ ltac:(reflexivity) two_dense_names
              ltac:(repeat constructor)) as [Hfirst _].
  rewrite Hfirst. split; vm_compute; reflexivity.
Defined.

Lemma written_averages_are_read_back_witness :
  exists d' nr',
    _update_tensorflow_averages 7 1 two_dense
      (mkSgd (Some [(OtherKey 0, 99)]) ∅) = (mkSgd (Some d') nr', Ok tt)
    /\ collect_params (key_prefix 7) d' ∅ = Ok (_create_state_dict two_dense).
Proof.
  apply (written_averages_are_read_back (be := plain_backend) 7 1 0 two_dense
           [(OtherKey 0, 99)] ∅ ltac:(reflexivity) two_dense_names
           ltac:(repeat constructor)).
  - intros w Hw. apply list_elem_of_In in Hw. cbn in Hw.
    destruct Hw as [<-|[<-|[<-|[]]]]; reflexivity.
  - intros w Hw. apply list_elem_of_In in Hw. cbn in Hw.
    destruct Hw as [<-|[<-|[<-|[]]]]; reflexivity.
Defined.

(** [str.replace] removes every occurrence of the prefix, not the
    leading one alone. *)
Example replace_removes_every_occurrence :
  str_replace_with_empty "tensorflow_7_" "tensorflow_7_a/tensorflow_7_b"
  = "a/b".
Proof. reflexivity. Qed.

Example replace_does_not_overlap :
  str_replace_with_empty "aa" "aaa" = "a"
  /\ str_replace_with_empty "ab" "xabyab" = "xy".
Proof. split; reflexivity. Qed.

End TensorFlowShimOnSample.
